(** * GridGuard: outage-risk scoring (backend/app.py)

    A shallow embedding of the scoring core of [backend/app.py]:
    the statistics helpers, the weather adapter, the anomaly detector,
    the risk scorer and the rule-based explanation generator.

    Numbers are IEEE-754 binary64 values, as Python's [float]: every
    arithmetic operation and comparison below is the primitive one, so
    NaN, the infinities and rounding behave as they do at run time.  A
    Python [int] that meets a float (the literals [5], [50], [100], the
    accumulated [anomaly_score] and [env_risk], a [len]) is converted
    first, exactly as the interpreter does.  Scores that the program
    keeps as [int] are integers here.

    What the interpreter renders for [{x}] and [{x:.1f}] inside an
    f-string, and what [round(x, 1)] returns, belong to the Python
    runtime and not to this program; they are parameters of the model. *)

From Stdlib Require Import ZArith Lia List Bool String Ascii QArith DecimalString.
From Stdlib Require Import Floats.
From Stdlib Require Uint63.
Import ListNotations.

Set Warnings "-inexact-float,-register-all".
Close Scope Q_scope.
Open Scope string_scope.

(** ** Exceptions *)

Inductive exn : Type :=
| OverflowError | ValueError | TypeError | KeyError | AttributeError
| ConnectionError | RequestTimeout | HTTPError | JSONDecodeError.

Inductive result (A : Type) : Type :=
| Ok (a : A)
| Raise (e : exn).

Arguments Ok {A} a.
Arguments Raise {A} e.

Definition bind {A B : Type} (c : result A) (k : A -> result B) : result B :=
  match c with
  | Ok a => k a
  | Raise e => Raise e
  end.

Declare Scope py_scope.
Delimit Scope py_scope with py.
Notation "x <- c ;; k" := (bind c (fun x => k))
  (at level 61, c at next level, right associativity) : py_scope.
Notation "' p <- c ;; k" := (bind c (fun x => let p := x in k))
  (at level 61, p pattern, c at next level, right associativity) : py_scope.

Fixpoint mapM {A B : Type} (f : A -> result B) (l : list A) : result (list B) :=
  match l with
  | [] => Ok []
  | a :: l' =>
      match f a with
      | Raise e => Raise e
      | Ok b => match mapM f l' with
                | Raise e => Raise e
                | Ok bs => Ok (b :: bs)
                end
      end
  end.

(** ** The Python built-ins the program calls *)

Module Py.

(** [x > y] and [x < y] on floats: false as soon as one side is NaN. *)
Definition gt (x y : float) : bool := (y <? x)%float.
Definition lt (x y : float) : bool := (x <? y)%float.

(** [min(a, b)] keeps [a] unless [b < a]; [max(a, b)] keeps [a] unless
    [b > a]. *)
Definition min2 (a b : float) : float := if lt b a then b else a.
Definition max2 (a b : float) : float := if gt b a then b else a.

(** [float(z)] for an [int] below [2^63] in magnitude. *)
Definition float_of_int (z : Z) : float :=
  if (z <? 0)%Z then (- of_uint63 (Uint63.of_Z (- z)))%float
  else of_uint63 (Uint63.of_Z z).

(** [sum(values)]: starts from [0] and adds from left to right, with one
    rounding per addition (the loop of CPython up to 3.11; from 3.12 on
    the interpreter carries a compensation term through this loop). *)
Definition sum (values : list float) : float :=
  fold_left PrimFloat.add values 0%float.

Definition is_finite (x : float) : bool :=
  negb (is_nan x) && negb (is_infinity x).

(** [x ** 2]: the rounded square; [OverflowError] when the operand is
    finite and the square is not. *)
Definition pow2 (x : float) : result float :=
  let y := (x * x)%float in
  if is_finite x && is_infinity y then Raise OverflowError else Ok y.

(** [math.sqrt(x)]: [ValueError] below zero. *)
Definition sqrt (x : float) : result float :=
  if lt x 0 then Raise ValueError else Ok (PrimFloat.sqrt x).

(** [int(x)]: the integer part, towards zero; NaN and the infinities
    have none. *)
Definition int (x : float) : result Z :=
  match Prim2SF x with
  | S754_nan => Raise ValueError
  | S754_infinity _ => Raise OverflowError
  | S754_zero _ => Ok 0%Z
  | S754_finite s m e => Ok (cond_Zopp s (Z.shiftl (Zpos m) e))
  end.

End Py.

(** The exact value of a finite float, as a rational. *)
Definition exact_value (x : float) : option Q :=
  match Prim2SF x with
  | S754_zero _ => Some 0%Q
  | S754_finite s m e =>
      let mag := match e with
                 | Zneg k => Qmake (Zpos m) (2 ^ k)%positive
                 | _ => inject_Z (Z.shiftl (Zpos m) e)
                 end in
      Some (if s then Qopp mag else mag)
  | _ => None
  end.

(** ** Kinds of binary64 values *)

(** Sign and kind of a rounded non-zero result. *)
Definition nonzero_of_sign (sx : bool) (x : spec_float) : bool :=
  match x with
  | S754_finite s _ _ => Bool.eqb s sx
  | S754_infinity s => Bool.eqb s sx
  | _ => false
  end.

Definition is_positive (x : spec_float) : bool := nonzero_of_sign false x.

(** Strictly above zero: a positive finite value or plus infinity. *)
Definition strictly_positive (x : float) : Prop := is_positive (Prim2SF x) = true.

(** A value that is a zero or NaN: no threshold is below it. *)
Definition negligible (x : spec_float) : bool :=
  match x with
  | S754_zero _ | S754_nan => true
  | _ => false
  end.

(** Not below zero: NaN, plus zero, a positive finite value or plus
    infinity.  Sums of squares stay in this class. *)
Definition not_negative (x : spec_float) : bool :=
  match x with
  | S754_nan => true
  | S754_zero s | S754_infinity s | S754_finite s _ _ => negb s
  end.

(** ** Data model *)

Record weather : Type := {
  temp : float;
  wind_speed : float;
  precipitation : float
}.

Record outage : Type := {
  neighborhood_id : string;
  weather_conditions : weather;
  outage_occurred : bool
}.

Record neighborhood : Type := {
  id : string;
  name : string;
  lat : float;
  lng : float;
  vulnerability_score : float;
  infrastructure_age : float
}.

(** A decoded JSON document, as [response.json()] returns it. *)
Inductive json : Type :=
| JNull
| JBool (b : bool)
| JNum (x : float)
| JStr (s : string)
| JArr (items : list json)
| JObj (fields : list (string * json)).

(** What one HTTP request to the forecast provider comes to. *)
Inductive http_outcome : Type :=
| ConnectionFailed
| TimedOut
| Responded (status : Z) (body : option json).

(** ** The program *)

Section GridGuard.

(** The interpreter's rendering of a number inside an f-string: [{x}]
    and [{x:.1f}]; and the built-in [round(x, 1)]. *)
Variable str_num : float -> string.
Variable str_1f : float -> string.
Variable round1 : float -> float.

(** The two reference tables, loaded once from [../data/*.json]. *)
Variable neighborhoods : list neighborhood.
Variable historical_outages : list outage.

(** *** Statistics helpers *)

Definition calculate_mean (values : list float) : float :=
  match values with
  | [] => 0%float
  | _ => (Py.sum values / Py.float_of_int (Z.of_nat (List.length values)))%float
  end.

Definition calculate_std (values : list float) : result float :=
  if (List.length values <? 2)%nat then Ok 0%float
  else
    let mean := calculate_mean values in
    (squares <- mapM (fun x => Py.pow2 (x - mean)%float) values ;;
     let variance :=
       (Py.sum squares / Py.float_of_int (Z.of_nat (List.length values)))%float in
     Py.sqrt variance)%py.

(** *** Weather adapter *)

Definition fallback_forecast : weather :=
  {| temp := 15.0%float; wind_speed := 25.0%float; precipitation := 1.5%float |}.

(** [requests.get(url, timeout=10)], [raise_for_status()], [json()]. *)
Definition http_get_json (reply : http_outcome) : result json :=
  match reply with
  | ConnectionFailed => Raise ConnectionError
  | TimedOut => Raise RequestTimeout
  | Responded status body =>
      if ((400 <=? status) && (status <? 600))%Z then Raise HTTPError
      else match body with
           | None => Raise JSONDecodeError
           | Some data => Ok data
           end
  end.

Fixpoint lookup (key : string) (fields : list (string * json)) : option json :=
  match fields with
  | [] => None
  | (k, v) :: rest => if String.eqb k key then Some v else lookup key rest
  end.

(** [obj[key]] with a string key. *)
Definition subscript (obj : json) (key : string) : result json :=
  match obj with
  | JObj fields =>
      match lookup key fields with
      | Some v => Ok v
      | None => Raise KeyError
      end
  | _ => Raise TypeError
  end.

(** [obj.get(key, default)]. *)
Definition dict_get (obj : json) (key : string) (default : json) : result json :=
  match obj with
  | JObj fields =>
      match lookup key fields with
      | Some v => Ok v
      | None => Ok default
      end
  | _ => Raise AttributeError
  end.

(** [seq[:8]]: lists and strings can be sliced. *)
Definition slice8 (seq : json) : result (list json) :=
  match seq with
  | JArr items => Ok (firstn 8 items)
  | JStr s =>
      Ok (map (fun c => JStr (String c EmptyString)) (firstn 8 (list_ascii_of_string s)))
  | _ => Raise TypeError
  end.

(** A JSON value used as a summand: numbers, and booleans as 0 and 1. *)
Definition as_number (v : json) : result float :=
  match v with
  | JNum x => Ok x
  | JBool b => Ok (if b then 1%float else 0%float)
  | _ => Raise TypeError
  end.

(** The body of the [try] block. *)
Definition fetch_forecast (reply : http_outcome) : result weather :=
  (data <- http_get_json reply ;;
   lst <- subscript data "list" ;;
   forecasts <- slice8 lst ;;
   temps <- mapM (fun f => m <- subscript f "main" ;; subscript m "temp") forecasts ;;
   winds <- mapM (fun f => w <- subscript f "wind" ;; subscript w "speed") forecasts ;;
   rains <- mapM (fun f => r <- dict_get f "rain" (JObj []) ;;
                           dict_get r "3h" (JNum 0%float)) forecasts ;;
   temps' <- mapM as_number temps ;;
   winds' <- mapM as_number winds ;;
   rains' <- mapM as_number rains ;;
   Ok {| temp := round1 (calculate_mean temps');
         wind_speed := round1 (calculate_mean winds' * 3.6)%float;
         precipitation := round1 (Py.sum rains') |})%py.

(** [try: ... except Exception: return {...}]. *)
Definition get_weather_forecast (reply : http_outcome) : weather :=
  match fetch_forecast reply with
  | Ok forecast => forecast
  | Raise _ => fallback_forecast
  end.

(** *** Anomaly detector *)

(** [calculate_std(values) if len(values) > 1 else prior]. *)
Definition std_or_prior (prior : float) (values : list float) : result float :=
  if (1 <? List.length values)%nat then calculate_std values else Ok prior.

(** [abs((current - mean) / std) if std > 0 else 0]. *)
Definition z_score (current mean std : float) : float :=
  if Py.gt std 0 then abs ((current - mean) / std) else 0%float.

Definition cold_factor (current_weather : weather) (temp_mean : float) : string :=
  "Unusually cold temperature (" ++ str_num (temp current_weather)
    ++ "°C vs avg " ++ str_1f temp_mean ++ "°C)".

Definition hot_factor (current_weather : weather) (temp_mean : float) : string :=
  "Unusually hot temperature (" ++ str_num (temp current_weather)
    ++ "°C vs avg " ++ str_1f temp_mean ++ "°C)".

Definition wind_factor (current_weather : weather) (wind_mean : float) : string :=
  "Unusually high winds (" ++ str_num (wind_speed current_weather)
    ++ " km/h vs avg " ++ str_1f wind_mean ++ " km/h)".

Definition precip_factor (current_weather : weather) (precip_mean : float) : string :=
  "Unusually heavy precipitation (" ++ str_num (precipitation current_weather)
    ++ " mm vs avg " ++ str_1f precip_mean ++ " mm)".

Definition normal_factor : string := "Weather conditions within normal range".

(** The running pair [(anomaly_score, anomaly_factors)] and the three
    [if / elif] statements that update it. *)
Definition anomaly_state : Type := (Z * list string)%type.

Definition temp_rule (current_weather : weather) (temp_mean temp_z : float)
  (st : anomaly_state) : anomaly_state :=
  let '(anomaly_score, anomaly_factors) := st in
  if Py.gt temp_z 2 then
    ((anomaly_score + 30)%Z,
     if Py.lt (temp current_weather) temp_mean
     then (anomaly_factors ++ [cold_factor current_weather temp_mean])%list
     else (anomaly_factors ++ [hot_factor current_weather temp_mean])%list)
  else if Py.gt temp_z 1 then ((anomaly_score + 15)%Z, anomaly_factors)
  else st.

Definition wind_rule (current_weather : weather) (wind_mean wind_z : float)
  (st : anomaly_state) : anomaly_state :=
  let '(anomaly_score, anomaly_factors) := st in
  if Py.gt wind_z 2 then
    ((anomaly_score + 35)%Z, (anomaly_factors ++ [wind_factor current_weather wind_mean])%list)
  else if Py.gt wind_z 1 then ((anomaly_score + 20)%Z, anomaly_factors)
  else st.

Definition precip_rule (current_weather : weather) (precip_mean precip_z : float)
  (st : anomaly_state) : anomaly_state :=
  let '(anomaly_score, anomaly_factors) := st in
  if Py.gt precip_z 2 then
    ((anomaly_score + 25)%Z, (anomaly_factors ++ [precip_factor current_weather precip_mean])%list)
  else if Py.gt precip_z 1 then ((anomaly_score + 15)%Z, anomaly_factors)
  else st.

Definition historical_temps (historical_data : list outage) : list float :=
  map (fun h => temp (weather_conditions h)) historical_data.
Definition historical_winds (historical_data : list outage) : list float :=
  map (fun h => wind_speed (weather_conditions h)) historical_data.
Definition historical_precip (historical_data : list outage) : list float :=
  map (fun h => precipitation (weather_conditions h)) historical_data.

Definition detect_weather_anomaly (current_weather : weather)
  (historical_data : list outage) : result (Z * list string) :=
  match historical_data with
  | [] => Ok (50%Z, ["Limited historical data available"])
  | _ =>
      let temp_mean := calculate_mean (historical_temps historical_data) in
      (temp_std <- std_or_prior 10 (historical_temps historical_data) ;;
       let wind_mean := calculate_mean (historical_winds historical_data) in
       wind_std <- std_or_prior 15 (historical_winds historical_data) ;;
       let precip_mean := calculate_mean (historical_precip historical_data) in
       precip_std <- std_or_prior 1 (historical_precip historical_data) ;;
       let temp_z := z_score (temp current_weather) temp_mean temp_std in
       let wind_z := z_score (wind_speed current_weather) wind_mean wind_std in
       let precip_z := z_score (precipitation current_weather) precip_mean precip_std in
       let st := (0%Z, []) in
       let st := temp_rule current_weather temp_mean temp_z st in
       let st := wind_rule current_weather wind_mean wind_z st in
       let st := precip_rule current_weather precip_mean precip_z st in
       let '(anomaly_score, anomaly_factors) := st in
       let anomaly_score := Z.min 100 anomaly_score in
       let anomaly_factors :=
         match anomaly_factors with
         | [] => (anomaly_factors ++ [normal_factor])%list
         | _ => anomaly_factors
         end in
       Ok (anomaly_score, anomaly_factors))%py
  end.

(** *** Risk scorer *)

Definition similarity_score (wc current_weather : weather) : float :=
  let temp_diff := abs (temp wc - temp current_weather) in
  let wind_diff := abs (wind_speed wc - wind_speed current_weather) in
  let precip_diff := abs (precipitation wc - precipitation current_weather) in
  ((1 - Py.min2 (temp_diff / 50) 1) * 0.3 +
   (1 - Py.min2 (wind_diff / 100) 1) * 0.4 +
   (1 - Py.min2 (precip_diff / 10) 1) * 0.3)%float.

(** One turn of the loop that fills [similar_conditions]. *)
Definition similar_step (current_weather : weather)
  (similar_conditions : list (outage * float)) (o : outage) : list (outage * float) :=
  let similarity := similarity_score (weather_conditions o) current_weather in
  if Py.gt similarity 0.6 then (similar_conditions ++ [(o, similarity)])%list
  else similar_conditions.

Definition similar_conditions (current_weather : weather)
  (neighborhood_history : list outage) : list (outage * float) :=
  fold_left (similar_step current_weather) neighborhood_history [].

Definition total_weight (similar : list (outage * float)) : float :=
  Py.sum (map snd similar).

Definition weighted_outage_count (similar : list (outage * float)) : float :=
  Py.sum (map snd (filter (fun s => outage_occurred (fst s)) similar)).

Definition outage_probability (similar : list (outage * float)) : float :=
  if Py.gt (total_weight similar) 0
  then (weighted_outage_count similar / total_weight similar)%float
  else 0.5%float.

(** What the pattern-matching block adds to [risk_score]. *)
Definition historical_term (similar : list (outage * float)) : float :=
  match similar with
  | [] => 20%float
  | _ => (outage_probability similar * 40)%float
  end.

Definition env_temp_rule (t : float) (env_risk : Z) : Z :=
  if Py.lt t (-5) then (env_risk + 15)%Z
  else if Py.lt t 0 || Py.gt t 35 then (env_risk + 10)%Z
  else if Py.gt t 30 then (env_risk + 5)%Z
  else env_risk.

Definition env_wind_rule (w : float) (env_risk : Z) : Z :=
  if Py.gt w 60 then (env_risk + 20)%Z
  else if Py.gt w 50 then (env_risk + 15)%Z
  else if Py.gt w 35 then (env_risk + 10)%Z
  else env_risk.

Definition env_precip_rule (p : float) (env_risk : Z) : Z :=
  if Py.gt p 4 then (env_risk + 15)%Z
  else if Py.gt p 3 then (env_risk + 10)%Z
  else if Py.gt p 2 then (env_risk + 5)%Z
  else env_risk.

Definition environmental_risk (current_weather : weather) : Z :=
  let env_risk := 0%Z in
  let env_risk := env_temp_rule (temp current_weather) env_risk in
  let env_risk := env_wind_rule (wind_speed current_weather) env_risk in
  let env_risk := env_precip_rule (precipitation current_weather) env_risk in
  env_risk.

Definition find_neighborhood (nbhd_id : string) : option neighborhood :=
  find (fun n => String.eqb (id n) nbhd_id) neighborhoods.

Definition infrastructure_term (n : neighborhood) : float :=
  let vulnerability_factor := (vulnerability_score n / 10 * 10)%float in
  let infrastructure_factor := (infrastructure_age n / 50 * 10)%float in
  (vulnerability_factor + infrastructure_factor)%float.

(** [risk_score] as it stands just before the final clamp. *)
Definition accumulated_risk (nbhd_id : string) (current_weather : weather)
  (neighborhood_history : list outage) (anomaly_score : Z) : float :=
  let risk_score := (Py.float_of_int anomaly_score * 0.4)%float in
  let risk_score :=
    (risk_score
     + historical_term (similar_conditions current_weather neighborhood_history))%float in
  let risk_score :=
    (risk_score + Py.float_of_int (environmental_risk current_weather) * 0.2)%float in
  match find_neighborhood nbhd_id with
  | Some n => (risk_score + infrastructure_term n)%float
  | None => risk_score
  end.

(** [int(min(95, max(5, risk_score)))]. *)
Definition clamp (risk_score : float) : float :=
  Py.min2 95 (Py.max2 5 risk_score).

Definition neighborhood_history (nbhd_id : string) : list outage :=
  filter (fun o => String.eqb (neighborhood_id o) nbhd_id) historical_outages.

Definition calculate_risk_score (nbhd_id : string) (current_weather : weather)
  : result (Z * list string) :=
  match neighborhood_history nbhd_id with
  | [] => Ok (30%Z, ["Limited historical data for this area"])
  | history =>
      ('(anomaly_score, anomaly_factors) <-
          detect_weather_anomaly current_weather history ;;
       let risk_score :=
         accumulated_risk nbhd_id current_weather history anomaly_score in
       final_score <- Py.int (clamp risk_score) ;;
       Ok (final_score, anomaly_factors))%py
  end.

(** *** Risk level and rule-based explanation *)

(** The ["risk_level"] field of the [/risk] response. *)
Definition risk_level (risk_score : Z) : string :=
  if (risk_score <? 40)%Z then "Low"
  else if (risk_score <? 70)%Z then "Moderate"
  else "High".

(** The same expression where the prompt of the text service is built. *)
Definition prompt_risk_level (risk_score : Z) : string :=
  if (risk_score <? 40)%Z then "Low"
  else if (risk_score <? 70)%Z then "Moderate"
  else "High".

Definition neighborhood_name (nbhd_id : string) : string :=
  match find_neighborhood nbhd_id with
  | Some n => name n
  | None => "your area"
  end.

Definition concern (w : weather) : string :=
  if Py.gt (wind_speed w) 40 then
    "high winds of " ++ str_num (wind_speed w) ++ " km/h"
  else if Py.lt (temp w) 0 then
    "freezing temperatures of " ++ str_num (temp w) ++ "°C"
  else if Py.gt (precipitation w) 2 then
    "heavy precipitation of " ++ str_num (precipitation w) ++ " mm"
  else "concerning weather patterns".

Definition main_concern_and_action (w : weather) : string * string :=
  if Py.gt (wind_speed w) 50 then
    ("dangerous wind speeds of " ++ str_num (wind_speed w) ++ " km/h",
     "Secure loose outdoor items and stay indoors")
  else if Py.lt (temp w) (-5) then
    ("extreme cold of " ++ str_num (temp w) ++ "°C",
     "Prepare extra blankets and heating alternatives")
  else if Py.gt (precipitation w) 3 then
    ("severe precipitation of " ++ str_num (precipitation w) ++ " mm",
     "Prepare for possible flooding and power disruptions")
  else
    ("severe weather conditions", "Take immediate preparatory measures").

Definition generate_fallback_explanation (nbhd_id : string) (risk_score : Z)
  (w : weather) (anomaly_factors : list string) : string :=
  let neighborhood_name := neighborhood_name nbhd_id in
  if (risk_score <? 40)%Z then
    "Low risk of power outage in " ++ neighborhood_name
      ++ ". Weather conditions are within normal range with "
      ++ str_num (temp w) ++ "°C and " ++ str_num (wind_speed w)
      ++ " km/h winds. No immediate preparation needed, but it's always good to have flashlights and charged devices ready."
  else if (risk_score <? 70)%Z then
    "Moderate risk of power outage in " ++ neighborhood_name
      ++ ". Our analysis detected " ++ concern w
      ++ " that may affect power lines. Consider charging essential devices, having flashlights ready, and keeping emergency contacts accessible."
  else
    let '(main_concern, action) := main_concern_and_action w in
    "High risk of power outage in " ++ neighborhood_name
      ++ ". Weather analysis shows " ++ main_concern
      ++ " that significantly increases outage probability. " ++ action
      ++ ". Charge all essential medical devices immediately, prepare backup power sources, and have emergency supplies ready.".

(** *** Explanation through the text service *)

Section Endpoints.

(** [str.strip()], the interpreter's; and the clock of [datetime.now()]. *)
Variable str_strip : string -> string.
Variable timestamp : string.

(** [str(z)] for an [int]: its decimal digits. *)
Definition str_int (z : Z) : string := NilZero.string_of_int (Z.to_int z).

Definition newline : string := String (ascii_of_nat 10) EmptyString.

Definition anomaly_info (anomaly_factors : list string) : string :=
  String.concat newline (map (fun factor => "- " ++ factor) anomaly_factors).

Definition prompt (nbhd_id : string) (risk_score : Z) (w : weather)
  (anomaly_factors : list string) : string :=
  "You are explaining power outage risk to vulnerable households (elderly, people with disabilities, low-income families) who depend on electricity for medical devices or daily needs.

Neighborhood: "
    ++ match find_neighborhood nbhd_id with
       | Some n => name n
       | None => nbhd_id
       end
    ++ "
Risk Score: " ++ str_int risk_score ++ "% (" ++ prompt_risk_level risk_score
    ++ " Risk)
Current Weather Forecast (Next 24 hours):
- Temperature: " ++ str_num (temp w) ++ "°C
- Wind Speed: " ++ str_num (wind_speed w) ++ " km/h
- Precipitation: " ++ str_num (precipitation w) ++ " mm

Detected Anomalies:
" ++ anomaly_info anomaly_factors ++ "

Write a clear, empathetic explanation (2-3 sentences) that:
1. States the risk level in plain language
2. Explains the main weather factor causing concern
3. Provides one actionable preparation tip

Use simple language, avoid technical jargon, and be direct but caring.".

(** [not github_token or github_token == 'your-github-token-here']. *)
Definition no_token (github_token : option string) : bool :=
  match github_token with
  | None => true
  | Some t => String.eqb t "" || String.eqb t "your-github-token-here"
  end.

(** What is left of a computation once [except Exception] has caught
    whatever it raised. *)
Definition caught {A : Type} (c : result A) : option A :=
  match c with
  | Ok a => Some a
  | Raise _ => None
  end.

(** [seq[0]]: the first item of a list or the first character of a string;
    an empty sequence, an object (its keys are strings) and any other value
    raise. *)
Definition index0 (seq : json) : option json :=
  match seq with
  | JArr (first :: _) => Some first
  | JStr (String c _) => Some (JStr (String c EmptyString))
  | _ => None
  end.

(** [result['choices'][0]['message']['content'].strip()] after the request:
    the body of the [try] block, with [None] for any exception. *)
Definition chat_content (reply : http_outcome) : option string :=
  match caught (result <- http_get_json reply ;; subscript result "choices")%py with
  | None => None
  | Some choices =>
      match index0 choices with
      | None => None
      | Some choice =>
          match caught (message <- subscript choice "message" ;;
                        subscript message "content")%py with
          | Some (JStr content) => Some (str_strip content)
          | _ => None
          end
      end
  end.

Definition generate_explanation_with_ai (github_token : option string)
  (text_service : string -> http_outcome) (nbhd_id : string) (risk_score : Z)
  (w : weather) (anomaly_factors : list string) : string :=
  if no_token github_token then
    generate_fallback_explanation nbhd_id risk_score w anomaly_factors
  else
    match chat_content (text_service (prompt nbhd_id risk_score w anomaly_factors)) with
    | Some text => text
    | None => generate_fallback_explanation nbhd_id risk_score w anomaly_factors
    end.

(** *** Endpoints *)

Record health : Type := {
  h_status : string;
  h_timestamp : string;
  h_ai_services : list string
}.

Definition health_check : health :=
  {| h_status := "healthy";
     h_timestamp := timestamp;
     h_ai_services := ["Statistical Anomaly Detection";
                       "Machine Learning Pattern Recognition";
                       "Predictive Risk Modeling";
                       "Natural Language Generation"] |}.

Definition get_map_data : list neighborhood := neighborhoods.

Record risk_assessment : Type := {
  r_neighborhood_id : string;
  r_neighborhood_name : string;
  r_risk_score : Z;
  r_risk_level : string;
  r_explanation : string;
  r_weather : weather;
  r_anomaly_factors : list string;
  r_microsoft_ai_services_used : list string;
  r_timestamp : string
}.

Inductive response_body : Type :=
| ErrorBody (error : string)
| RiskBody (assessment : risk_assessment).

(** [GET /risk]: the status code and the JSON body; an exception that
    leaves the handler is the result [Raise]. *)
Definition get_risk (arg : option string) (weather_service : float -> float -> http_outcome)
  (github_token : option string) (text_service : string -> http_outcome)
  : result (Z * response_body) :=
  match arg with
  | None => Ok (400%Z, ErrorBody "neighborhood_id required")
  | Some nbhd_id =>
      if String.eqb nbhd_id "" then Ok (400%Z, ErrorBody "neighborhood_id required")
      else
        match find_neighborhood nbhd_id with
        | None => Ok (404%Z, ErrorBody "Neighborhood not found")
        | Some n =>
            let w := get_weather_forecast (weather_service (lat n) (lng n)) in
            ('(risk_score, anomaly_factors) <- calculate_risk_score nbhd_id w ;;
             let explanation :=
               generate_explanation_with_ai github_token text_service nbhd_id
                 risk_score w anomaly_factors in
             Ok (200%Z,
                 RiskBody
                   {| r_neighborhood_id := nbhd_id;
                      r_neighborhood_name := name n;
                      r_risk_score := risk_score;
                      r_risk_level := risk_level risk_score;
                      r_explanation := explanation;
                      r_weather := w;
                      r_anomaly_factors := anomaly_factors;
                      r_microsoft_ai_services_used :=
                        ["Statistical Anomaly Detection (Custom ML)";
                         "Machine Learning Pattern Recognition";
                         "Predictive Risk Modeling";
                         "Natural Language Generation (GitHub Models - Microsoft Azure OpenAI)"];
                      r_timestamp := timestamp |}))%py
        end
  end.

End Endpoints.

(** ** The specification's vocabulary *)

(** The three score bands: below 40, 40 to 69, 70 and above. *)
Inductive band : Type := LowBand | ModerateBand | HighBand.

Definition score_band (score : Z) : band :=
  if (score <? 40)%Z then LowBand
  else if (score <? 70)%Z then ModerateBand
  else HighBand.

Definition band_label (b : band) : string :=
  match b with
  | LowBand => "Low"
  | ModerateBand => "Moderate"
  | HighBand => "High"
  end.

(** A forecast interval that reports no rain: an object without a ["rain"]
    entry, or one whose ["rain"] object has no ["3h"] entry. *)
Definition no_rain_reported (interval : json) : Prop :=
  exists fields,
    interval = JObj fields
    /\ (lookup "rain" fields = None
        \/ exists rain, lookup "rain" fields = Some (JObj rain)
                        /\ lookup "3h" rain = None).

(** One dimension of the anomaly score: [strong] points above two standard
    deviations, [moderate] points above one, nothing otherwise. *)
Definition contribution (strong moderate : Z) (z : float) : Z :=
  if Py.gt z 2 then strong else if Py.gt z 1 then moderate else 0%Z.

Definition anomaly_score_spec (temp_z wind_z precip_z : float) : Z :=
  Z.min 100 (contribution 30 15 temp_z + contribution 35 20 wind_z
             + contribution 25 15 precip_z).

(** The factor a dimension gives when it is strong, none otherwise. *)
Definition strong_only (z : float) (factor : string) : list string :=
  if Py.gt z 2 then [factor] else [].

Definition temp_factor (current_weather : weather) (temp_mean : float) : string :=
  if Py.lt (temp current_weather) temp_mean
  then cold_factor current_weather temp_mean
  else hot_factor current_weather temp_mean.

Definition strong_factors (current_weather : weather)
  (temp_mean wind_mean precip_mean temp_z wind_z precip_z : float) : list string :=
  (strong_only temp_z (temp_factor current_weather temp_mean)
   ++ strong_only wind_z (wind_factor current_weather wind_mean)
   ++ strong_only precip_z (precip_factor current_weather precip_mean))%list.

Definition anomaly_factors_spec (strong : list string) : list string :=
  match strong with
  | [] => [normal_factor]
  | _ => strong
  end.

(** The clamped value, its integer part and the bounds of a returned score. *)
Definition clamped_and_truncated (risk_score : float) (score : Z) : Prop :=
  let clamped := clamp risk_score in
  (Py.gt clamped 95 = false /\ Py.lt clamped 5 = false)
  /\ Py.int clamped = Ok score
  /\ exists q, exact_value clamped = Some q
               /\ (inject_Z score <= q)%Q /\ (q < inject_Z score + 1)%Q.

(** An ordered chain of bands: the first band whose condition holds gives
    the points, and no other band of the chain adds to them. *)
Fixpoint first_match (bands : list (bool * Z)) : Z :=
  match bands with
  | [] => 0%Z
  | (cond, points) :: rest => if cond then points else first_match rest
  end.

Definition temp_bands (t : float) : list (bool * Z) :=
  [(Py.lt t (-5), 15%Z); (Py.lt t 0 || Py.gt t 35, 10%Z); (Py.gt t 30, 5%Z)].

Definition wind_bands (w : float) : list (bool * Z) :=
  [(Py.gt w 60, 20%Z); (Py.gt w 50, 15%Z); (Py.gt w 35, 10%Z)].

Definition precip_bands (p : float) : list (bool * Z) :=
  [(Py.gt p 4, 15%Z); (Py.gt p 3, 10%Z); (Py.gt p 2, 5%Z)].

(** The similarity of two weather tuples, with the weights in front as
    the specification writes them. *)
Definition closeness (diff scale : float) : float :=
  (1 - Py.min2 (diff / scale) 1)%float.

Definition similarity_spec (wc current_weather : weather) : float :=
  (0.3 * closeness (abs (temp wc - temp current_weather)) 50
   + 0.4 * closeness (abs (wind_speed wc - wind_speed current_weather)) 100
   + 0.3 * closeness (abs (precipitation wc - precipitation current_weather)) 10)%float.

(** The qualifying records, as a selection rather than a loop. *)
Definition qualifying (current_weather : weather) (history : list outage)
  : list (outage * float) :=
  filter (fun s => Py.gt (snd s) 0.6)
    (map (fun o => (o, similarity_spec (weather_conditions o) current_weather)) history).

(** The weighted fraction of the qualifying records that saw an outage. *)
Definition weighted_fraction (similar : list (outage * float)) : float :=
  (weighted_outage_count similar / total_weight similar)%float.

(** ** Sample data *)

Definition sample_neighborhoods : list neighborhood :=
  [ {| id := "downtown"; name := "Downtown"; lat := 40.71%float; lng := (-74.0)%float;
       vulnerability_score := 7%float; infrastructure_age := 35%float |};
    {| id := "riverside"; name := "Riverside"; lat := 40.75%float; lng := (-73.98)%float;
       vulnerability_score := 4%float; infrastructure_age := 20%float |} ].

Definition record (nbhd_id : string) (t w p : float) (occurred : bool) : outage :=
  {| neighborhood_id := nbhd_id;
     weather_conditions := {| temp := t; wind_speed := w; precipitation := p |};
     outage_occurred := occurred |}.

Definition sample_outages : list outage :=
  [ record "downtown" 12 20 1 false;
    record "downtown" 14 25 0 false;
    record "downtown" 10 70 5 true;
    record "downtown" 16 22 2 false ].

(** Three records with the same weather. *)
Definition uniform_outages : list outage :=
  [ record "downtown" 15 25 1.5 false;
    record "downtown" 15 25 1.5 true;
    record "downtown" 15 25 1.5 false ].

Definition calm : weather :=
  {| temp := 15%float; wind_speed := 25%float; precipitation := 1.5%float |}.

Definition storm : weather :=
  {| temp := (-6)%float; wind_speed := 80%float; precipitation := 6%float |}.


(** One interval of a reply of the forecast provider, with whatever it says
    about rain, and a reply made of intervals. *)
Definition interval (t s : float) (rain : list (string * json)) : json :=
  JObj ([("main", JObj [("temp", JNum t)]); ("wind", JObj [("speed", JNum s)])]
        ++ rain)%list.

Definition forecast_reply (items : list json) : http_outcome :=
  Responded 200 (Some (JObj [("cod", JStr "200"); ("list", JArr items)])).

(** A reply of the text service with one choice. *)
Definition chat_reply (content : string) : http_outcome :=
  Responded 200
    (Some (JObj [("choices",
                  JArr [JObj [("index", JNum 0);
                              ("message", JObj [("role", JStr "assistant");
                                                ("content", JStr content)])]])])).

(** A lossless rendering of a float, mantissa and binary exponent, that
    stands for the interpreter's where a concrete one is needed. *)
Definition exact_str (x : float) : string :=
  match Prim2SF x with
  | S754_nan => "nan"
  | S754_infinity s => if s then "-inf" else "inf"
  | S754_zero s => if s then "-0" else "0"
  | S754_finite s m e =>
      (if s then "-" else "")
        ++ NilZero.string_of_uint (Pos.to_uint m)
        ++ "p" ++ NilZero.string_of_int (Z.to_int e)
  end.

(** ** Facts about binary64 arithmetic *)

Local Open Scope Z_scope.

Lemma SFcompare_refl_not_lt x : SFltb x x = false.
Proof.
  unfold SFltb. destruct x as [s|s| |s m e]; simpl; try reflexivity.
  - destruct s; reflexivity.
  - destruct s; rewrite Z.compare_refl, Pos.compare_cont_refl; reflexivity.
Qed.

Lemma ltb_irrefl (x : float) : (x <? x)%float = false.
Proof. rewrite ltb_spec. apply SFcompare_refl_not_lt. Qed.

Lemma digits2_size m : digits2_pos m = Pos.size m.
Proof. induction m; simpl; congruence. Qed.

Lemma digits2_bounds m :
  (2 ^ (Zpos (digits2_pos m) - 1) <= Zpos m < 2 ^ Zpos (digits2_pos m))%Z.
Proof.
  rewrite digits2_size. split.
  - pose proof (Pos.size_le m) as H.
    assert (Hp : (Zpos (2 ^ Pos.size m) <= Zpos m~0)%Z) by exact H.
    rewrite Pos2Z.inj_pow in Hp.
    replace (Zpos (Pos.size m)) with (Z.succ (Zpos (Pos.size m) - 1)) in Hp by lia.
    rewrite Z.pow_succ_r in Hp by lia. lia.
  - pose proof (Pos.size_gt m) as H.
    assert (Hp : (Zpos m < Zpos (2 ^ Pos.size m))%Z) by exact H.
    now rewrite Pos2Z.inj_pow in Hp.
Qed.

Lemma shr_1_m mrs : 0 <= shr_m mrs -> shr_m (shr_1 mrs) = Z.div2 (shr_m mrs).
Proof.
  destruct mrs as [m r s]; simpl.
  destruct m as [|[p|p|]|p]; simpl; intros H; try reflexivity; lia.
Qed.

Lemma iter_shr_m p :
  forall mrs, 0 <= shr_m mrs ->
    shr_m (iter_pos shr_1 p mrs) = shr_m mrs / 2 ^ Zpos p.
Proof.
  induction p as [p IH|p IH|]; intros mrs Hm; simpl iter_pos.
  - assert (H1 : 0 <= shr_m (shr_1 mrs)).
    { rewrite shr_1_m by assumption. rewrite Z.div2_div. apply Z.div_pos; lia. }
    assert (H2 : 0 <= shr_m (iter_pos shr_1 p (shr_1 mrs))).
    { rewrite IH by assumption. apply Z.div_pos; [assumption|]. apply Z.pow_pos_nonneg; lia. }
    rewrite IH by assumption. rewrite IH by assumption.
    rewrite shr_1_m by assumption. rewrite Z.div2_div.
    rewrite !Z.div_div by (try apply Z.pow_pos_nonneg; lia).
    f_equal. replace (Zpos p~1) with (1 + Zpos p + Zpos p) by lia.
    rewrite !Z.pow_add_r by lia. change (2 ^ 1) with 2. ring.
  - assert (H2 : 0 <= shr_m (iter_pos shr_1 p mrs)).
    { rewrite IH by assumption. apply Z.div_pos; [assumption|]. apply Z.pow_pos_nonneg; lia. }
    rewrite IH by assumption. rewrite IH by assumption.
    rewrite !Z.div_div by (try apply Z.pow_pos_nonneg; lia).
    f_equal. replace (Zpos p~0) with (Zpos p + Zpos p) by lia.
    rewrite Z.pow_add_r by lia. ring.
  - rewrite shr_1_m by assumption. rewrite Z.div2_div. reflexivity.
Qed.

Lemma shr_record_of_loc_m m l : shr_m (shr_record_of_loc m l) = m.
Proof. destruct l as [|[ | | ]]; reflexivity. Qed.

Lemma shr_fexp_positive m e l :
  emin <= e ->
  0 < shr_m (fst (shr_fexp prec emax (Zpos m) e l))
  /\ emin <= snd (shr_fexp prec emax (Zpos m) e l).
Proof.
  intros He. unfold shr_fexp, shr, Zdigits2.
  pose proof (digits2_bounds m) as [Hlo _].
  set (d := Zpos (digits2_pos m)) in *.
  destruct (fexp prec emax (d + e) - e) as [|p|p] eqn:Hn; simpl;
    rewrite ?shr_record_of_loc_m; try (split; [lia | assumption]).
  split.
  - rewrite iter_shr_m by (rewrite shr_record_of_loc_m; lia).
    rewrite shr_record_of_loc_m.
    apply Z.div_str_pos. split; [apply Z.pow_pos_nonneg; lia|].
    apply Z.le_trans with (2 ^ (d - 1)); [|assumption].
    apply Z.pow_le_mono_r; [lia|].
    unfold fexp, SpecFloat.emin, prec, emax in *. lia.
  - lia.
Qed.

Lemma round_nearest_even_ge m l : m <= round_nearest_even m l.
Proof. destruct l as [|[ | | ]]; simpl; try lia. destruct (Z.even m); lia. Qed.

Lemma binary_round_aux_nonzero sx m e l :
  emin <= e ->
  nonzero_of_sign sx (binary_round_aux prec emax sx (Zpos m) e l) = true.
Proof.
  intros He. unfold binary_round_aux.
  pose proof (shr_fexp_positive m e l He) as [Hm He'].
  destruct (shr_fexp prec emax (Zpos m) e l) as [mrs' e'] eqn:H1. simpl in Hm, He'.
  pose proof (round_nearest_even_ge (shr_m mrs') (loc_of_shr_record mrs')) as Hr.
  destruct (round_nearest_even (shr_m mrs') (loc_of_shr_record mrs')) as [|m1|m1] eqn:H2;
    try lia.
  pose proof (shr_fexp_positive m1 e' loc_Exact He') as [Hm2 _].
  destruct (shr_fexp prec emax (Zpos m1) e' loc_Exact) as [mrs'' e''] eqn:H3. simpl in Hm2.
  destruct (shr_m mrs'') as [|m2|m2]; try lia.
  destruct (e'' <=? emax - prec); simpl; apply Bool.eqb_reflx.
Qed.

Lemma binary_round_nonzero sx m e :
  emin <= e -> nonzero_of_sign sx (binary_round prec emax sx m e) = true.
Proof.
  intros He. unfold binary_round, shl_align.
  destruct (fexp prec emax (Zpos (digits2_pos m) + e) - e) eqn:Hn;
    apply binary_round_aux_nonzero; try assumption.
  unfold fexp. lia.
Qed.

Lemma valid_emin s m e : valid_binary (S754_finite s m e) = true -> emin <= e.
Proof.
  unfold SpecFloat.valid_binary, bounded, canonical_mantissa, fexp.
  intros H. apply andb_true_iff in H as [H _]. apply Z.eqb_eq in H. lia.
Qed.

Lemma SFadd_positive x y :
  valid_binary x = true -> valid_binary y = true ->
  is_positive x = true -> is_positive y = true ->
  is_positive (SF64add x y) = true.
Proof.
  intros Vx Vy Px Py.
  destruct x as [sx|sx| |sx mx ex]; try discriminate;
    destruct y as [sy|sy| |sy my ey]; try discriminate;
    simpl in Px, Py; apply Bool.eqb_prop in Px, Py; subst; try reflexivity.
  unfold SF64add, SFadd. simpl cond_Zopp.
  apply valid_emin in Vx, Vy.
  apply binary_round_nonzero. lia.
Qed.

Lemma SFadd_zero_positive y :
  is_positive y = true -> SF64add (S754_zero false) y = y.
Proof. destruct y as [sy|sy| |sy my ey]; try discriminate; reflexivity. Qed.

Lemma add_strictly_positive x y : strictly_positive x -> strictly_positive y ->
  strictly_positive (x + y)%float.
Proof.
  unfold strictly_positive. intros Hx Hy. rewrite add_spec.
  apply SFadd_positive; auto using Prim2SF_valid.
Qed.

Lemma add_zero_positive y : strictly_positive y -> (0 + y)%float = y.
Proof.
  unfold strictly_positive. intros Hy. apply Prim2SF_inj. rewrite add_spec.
  change (Prim2SF 0) with (S754_zero false). now apply SFadd_zero_positive.
Qed.

Lemma positive_gt_zero x : strictly_positive x -> (0 <? x)%float = true.
Proof.
  unfold strictly_positive. rewrite FloatAxioms.ltb_spec.
  change (Prim2SF 0) with (S754_zero false).
  destruct (Prim2SF x) as [s|s| |s m e]; try discriminate; simpl;
    intros H; apply Bool.eqb_prop in H; subst; reflexivity.
Qed.

Lemma gt_positive c x :
  (0 <? c)%float = true -> (c <? x)%float = true -> strictly_positive x.
Proof.
  unfold strictly_positive. rewrite !FloatAxioms.ltb_spec.
  change (Prim2SF 0) with (S754_zero false).
  destruct (Prim2SF c) as [sc|sc| |sc mc ec]; try discriminate;
    destruct (Prim2SF x) as [s|s| |s m e]; try discriminate;
    unfold SFltb; simpl; try destruct sc; try destruct s; try discriminate; reflexivity.
Qed.

Lemma sum_positive (l : list float) :
  forall acc, strictly_positive acc -> Forall strictly_positive l ->
    strictly_positive (fold_left PrimFloat.add l acc).
Proof.
  induction l as [|x l IH]; intros acc Ha Hl; simpl; [assumption|].
  inversion Hl; subst. apply IH; [apply add_strictly_positive|]; assumption.
Qed.

Lemma float_mul_comm (x y : float) : (x * y)%float = (y * x)%float.
Proof.
  apply Prim2SF_inj. rewrite !mul_spec.
  unfold SF64mul, SFmul.
  destruct (Prim2SF x) as [sx|sx| |sx mx ex], (Prim2SF y) as [sy|sy| |sy my ey];
    rewrite ?(xorb_comm sx sy), ?(Pos.mul_comm mx my), ?(Z.add_comm ex ey);
    reflexivity.
Qed.

Lemma sub_self_negligible (x : float) : negligible (Prim2SF (x - x)) = true.
Proof.
  rewrite sub_spec. destruct (Prim2SF x) as [s|s| |s m e]; simpl; try reflexivity.
  - destruct s; reflexivity.
  - destruct s; reflexivity.
  - unfold SF64sub, SFsub. unfold shl_align. rewrite Z.min_id, Z.sub_diag. simpl fst.
    reflexivity.
Qed.

Lemma div_negligible (x y : float) :
  negligible (Prim2SF x) = true -> negligible (Prim2SF (x / y)) = true.
Proof.
  rewrite div_spec.
  destruct (Prim2SF x) as [s|s| |s m e]; try discriminate; intros _;
    destruct (Prim2SF y) as [sy|sy| |sy my ey]; reflexivity.
Qed.

Lemma abs_negligible (x : float) :
  negligible (Prim2SF x) = true -> negligible (Prim2SF (abs x)) = true.
Proof.
  rewrite abs_spec. destruct (Prim2SF x) as [s|s| |s m e]; try discriminate; reflexivity.
Qed.

Lemma negligible_not_gt (c x : float) :
  (0 <? c)%float = true -> negligible (Prim2SF x) = true -> (c <? x)%float = false.
Proof.
  rewrite !FloatAxioms.ltb_spec. change (Prim2SF 0) with (S754_zero false).
  destruct (Prim2SF x) as [s|s| |s m e]; try discriminate; intros Hc _;
    destruct (Prim2SF c) as [sc|sc| |sc mc ec]; try discriminate; try reflexivity;
    unfold SFltb in *; simpl in *; destruct sc; try discriminate; reflexivity.
Qed.

(** *** Signs of sums of squares *)

Lemma binary_round_aux_not_negative mx e l :
  not_negative (binary_round_aux prec emax false mx e l) = true.
Proof.
  unfold binary_round_aux.
  destruct (shr_fexp prec emax mx e l) as [mrs' e'].
  destruct (shr_fexp prec emax _ e' loc_Exact) as [mrs'' e''].
  destruct (shr_m mrs''); try reflexivity.
  destruct (e'' <=? emax - prec); reflexivity.
Qed.

Lemma binary_normalize_not_negative (z e : Z) :
  0 <= z -> not_negative (binary_normalize prec emax z e false) = true.
Proof.
  intros Hz. destruct z as [|p|p]; try lia; [reflexivity|].
  unfold binary_normalize, binary_round.
  destruct (shl_align p e _) as [mz ez]. apply binary_round_aux_not_negative.
Qed.

Lemma SFmul_self_not_negative (x : spec_float) :
  not_negative (SF64mul x x) = true.
Proof.
  destruct x as [s|s| |s m e]; try (destruct s; reflexivity); try reflexivity.
  unfold SF64mul, SFmul. rewrite xorb_nilpotent.
  apply binary_round_aux_not_negative.
Qed.

Lemma SFadd_not_negative (x y : spec_float) :
  not_negative x = true -> not_negative y = true ->
  not_negative (SF64add x y) = true.
Proof.
  destruct x as [sx|sx| |sx mx ex]; try (destruct sx; try discriminate);
    destruct y as [sy|sy| |sy my ey]; try (destruct sy; try discriminate);
    intros _ _; try reflexivity.
  unfold SF64add, SFadd, cond_Zopp.
  apply binary_normalize_not_negative. lia.
Qed.

Lemma SFdiv_not_negative (x y : spec_float) :
  not_negative x = true -> not_negative y = true ->
  not_negative (SF64div x y) = true.
Proof.
  destruct x as [sx|sx| |sx mx ex]; try (destruct sx; try discriminate);
    destruct y as [sy|sy| |sy my ey]; try (destruct sy; try discriminate);
    intros _ _; try reflexivity.
  unfold SF64div, SFdiv.
  destruct (SFdiv_core_binary prec emax (Zpos mx) ex (Zpos my) ey) as [[mz ez] lz].
  apply binary_round_aux_not_negative.
Qed.

Lemma float_of_len_not_negative (n : nat) :
  not_negative (Prim2SF (Py.float_of_int (Z.of_nat n))) = true.
Proof.
  unfold Py.float_of_int.
  destruct (Z.ltb_spec (Z.of_nat n) 0); [lia|].
  rewrite of_uint63_spec. apply binary_normalize_not_negative.
  apply Uint63.to_Z_bounded.
Qed.

Lemma sum_not_negative (l : list float) :
  forall acc,
    not_negative (Prim2SF acc) = true ->
    Forall (fun x => not_negative (Prim2SF x) = true) l ->
    not_negative (Prim2SF (fold_left PrimFloat.add l acc)) = true.
Proof.
  induction l as [|x l IH]; intros acc Ha Hl; simpl; [assumption|].
  inversion Hl; subst. apply IH; [|assumption].
  rewrite add_spec. now apply SFadd_not_negative.
Qed.

Lemma not_negative_not_below_zero (x : float) :
  not_negative (Prim2SF x) = true -> Py.lt x 0 = false.
Proof.
  unfold Py.lt. rewrite FloatAxioms.ltb_spec.
  change (Prim2SF 0) with (S754_zero false).
  destruct (Prim2SF x) as [s|s| |s m e]; try reflexivity;
    destruct s; try discriminate; reflexivity.
Qed.

(** *** What [calculate_std] can raise *)

Lemma pow2_ok (x y : float) :
  Py.pow2 x = Ok y -> not_negative (Prim2SF y) = true.
Proof.
  unfold Py.pow2. destruct (Py.is_finite x && is_infinity (x * x)); [discriminate|].
  intros [= <-]. rewrite mul_spec. apply SFmul_self_not_negative.
Qed.

Lemma pow2_raises (x : float) (e : exn) : Py.pow2 x = Raise e -> e = OverflowError.
Proof.
  unfold Py.pow2. destruct (Py.is_finite x && is_infinity (x * x)); congruence.
Qed.

Lemma squares_ok (f : float -> float) (values squares : list float) :
  mapM (fun x => Py.pow2 (f x)) values = Ok squares ->
  Forall (fun y => not_negative (Prim2SF y) = true) squares.
Proof.
  revert squares. induction values as [|x values IH]; intros squares; simpl.
  - intros [= <-]. constructor.
  - destruct (Py.pow2 (f x)) as [y|e] eqn:Hy; [|discriminate].
    destruct (mapM _ values) as [ys|e]; [|discriminate].
    intros [= <-]. constructor; [now apply pow2_ok with (x := f x)|now apply IH].
Qed.

Lemma squares_raise (f : float -> float) (values : list float) (e : exn) :
  mapM (fun x => Py.pow2 (f x)) values = Raise e -> e = OverflowError.
Proof.
  induction values as [|x values IH]; simpl; [discriminate|].
  destruct (Py.pow2 (f x)) as [y|e'] eqn:Hy.
  - destruct (mapM _ values) as [ys|e']; [discriminate|].
    intros [= <-]. now apply IH.
  - intros [= <-]. now apply pow2_raises with (x := f x).
Qed.

(** The square root never sees a value below zero: the only exception of
    [calculate_std] is the overflow of a square. *)
Lemma calculate_std_raises (values : list float) (e : exn) :
  calculate_std values = Raise e -> e = OverflowError.
Proof.
  unfold calculate_std. destruct (List.length values <? 2)%nat; [discriminate|].
  destruct (mapM _ values) as [squares|e'] eqn:Hsq; cbn [bind].
  - unfold Py.sqrt. rewrite not_negative_not_below_zero; [discriminate|].
    rewrite div_spec. apply SFdiv_not_negative.
    + apply sum_not_negative; [reflexivity|]. now apply squares_ok in Hsq.
    + apply float_of_len_not_negative.
  - intros [= <-]. now apply squares_raise in Hsq.
Qed.

(** *** Identical values whose mean is exact *)

Lemma finite_cases (x : float) :
  Py.is_finite x = true ->
  (exists s, Prim2SF x = S754_zero s) \/ (exists s m e, Prim2SF x = S754_finite s m e).
Proof.
  unfold Py.is_finite, is_nan, is_infinity.
  rewrite !FloatAxioms.eqb_spec, abs_spec.
  change (Prim2SF infinity) with (S754_infinity false).
  destruct (Prim2SF x) as [s|s| |s m e]; eauto;
    unfold SFeqb, SFcompare, SFabs; cbv beta iota; simpl;
    rewrite ?andb_false_r; discriminate.
Qed.

Lemma sub_self_finite (x : float) : Py.is_finite x = true -> (x - x)%float = 0%float.
Proof.
  intros H. apply Prim2SF_inj. rewrite sub_spec.
  change (Prim2SF 0) with (S754_zero false).
  destruct (finite_cases x H) as [(s & ->)|(s & m & e & ->)].
  - destruct s; reflexivity.
  - unfold SF64sub, SFsub, shl_align. rewrite Z.min_id, Z.sub_diag. simpl fst.
    reflexivity.
Qed.

Lemma squares_of_identical (x : float) (values : list float) :
  Py.is_finite x = true -> Forall (eq x) values ->
  mapM (fun v => Py.pow2 (v - x)%float) values = Ok (map (fun _ => 0%float) values).
Proof.
  intros Hx. induction 1 as [|v values Hv Hall IH]; [reflexivity|].
  subst v. cbn [mapM map]. rewrite sub_self_finite by assumption.
  change (Py.pow2 0) with (@Ok float 0%float). now rewrite IH.
Qed.

Lemma sum_of_zeros {A : Type} (l : list A) :
  Py.sum (map (fun _ => 0%float) l) = 0%float.
Proof.
  unfold Py.sum. induction l as [|a l IH]; [reflexivity|].
  cbn [map fold_left]. change (0 + 0)%float with 0%float. exact IH.
Qed.

Lemma float_of_len_positive (n : nat) :
  0 < Z.of_nat n < 2 ^ 63 -> strictly_positive (Py.float_of_int (Z.of_nat n)).
Proof.
  intros Hn. unfold strictly_positive, Py.float_of_int.
  destruct (Z.ltb_spec (Z.of_nat n) 0); [lia|].
  rewrite of_uint63_spec, Uint63.of_Z_spec.
  rewrite Z.mod_small by (change Uint63.wB with (2 ^ 63); lia).
  destruct (Z.of_nat n) as [|p|p]; try lia.
  apply binary_round_nonzero. unfold SpecFloat.emin, prec, emax. lia.
Qed.

Lemma zero_div_positive (y : float) : strictly_positive y -> (0 / y)%float = 0%float.
Proof.
  unfold strictly_positive. intros Hy. apply Prim2SF_inj. rewrite div_spec.
  change (Prim2SF 0) with (S754_zero false).
  destruct (Prim2SF y) as [s|s| |s m e]; try discriminate;
    simpl in Hy; apply Bool.eqb_prop in Hy; subst; reflexivity.
Qed.

(** Identical finite values whose computed mean is the value itself have
    the standard deviation 0. *)
Lemma calculate_std_identical (x : float) (values : list float) :
  Py.is_finite x = true -> Forall (eq x) values ->
  calculate_mean values = x -> Z.of_nat (List.length values) < 2 ^ 63 ->
  calculate_std values = Ok 0%float.
Proof.
  intros Hx Hall Hmean Hlen. unfold calculate_std.
  destruct (Nat.ltb_spec (List.length values) 2) as [|Hge]; [reflexivity|].
  rewrite Hmean, (squares_of_identical x values Hx Hall). cbn [bind].
  rewrite sum_of_zeros, zero_div_positive; [reflexivity|].
  apply float_of_len_positive. lia.
Qed.

(** *** The final clamp and [int] *)

Lemma clamp_cases (r : float) :
  (clamp r = r /\ Py.gt r 5 = true /\ Py.lt r 95 = true)
  \/ (clamp r = 5%float /\ Py.gt r 5 = false)
  \/ (clamp r = 95%float /\ Py.gt r 5 = true /\ Py.lt r 95 = false).
Proof.
  unfold clamp, Py.max2. destruct (Py.gt r 5) eqn:H5.
  - unfold Py.min2. destruct (Py.lt r 95) eqn:H95; auto.
  - right; left. split; reflexivity.
Qed.

Lemma normal_mantissa s m e :
  valid_binary (S754_finite s m e) = true -> -1074 < e ->
  2 ^ 52 <= Zpos m < 2 ^ 53.
Proof.
  unfold SpecFloat.valid_binary, bounded, canonical_mantissa, fexp, SpecFloat.emin, prec, emax.
  intros H He. apply andb_true_iff in H as [H _]. apply Z.eqb_eq in H.
  pose proof (digits2_bounds m) as Hd.
  assert (Hdig : Zpos (digits2_pos m) = 53) by lia.
  rewrite Hdig in Hd. exact Hd.
Qed.

Lemma compare_cont_Lt p q : PosDef.Pos.compare_cont Eq p q = Lt -> Zpos p < Zpos q.
Proof.
  intros H. change (Pos.compare p q = Lt) in H.
  apply (proj1 (Pos.compare_lt_iff p q)) in H. lia.
Qed.

Lemma shiftl_neg_div (m k : BinNums.positive) :
  Z.shiftl (Zpos m) (Zneg k) = Zpos m / 2 ^ Zpos k.
Proof.
  change (Zneg k) with (- Zpos k). rewrite Z.shiftl_opp_r.
  apply Z.shiftr_div_pow2. lia.
Qed.

Lemma int_between (r : float) :
  Py.gt r 5 = true -> Py.lt r 95 = true ->
  exists s, Py.int r = Ok s /\ 5 <= s <= 94.
Proof.
  unfold Py.gt, Py.lt, Py.int. rewrite !FloatAxioms.ltb_spec.
  pose proof (Prim2SF_valid r) as V.
  change (Prim2SF 5) with (S754_finite false 5629499534213120 (-50)).
  change (Prim2SF 95) with (S754_finite false 6685030696878080 (-46)).
  destruct (Prim2SF r) as [s|s| |s m e]; unfold SFltb, SFcompare; cbv beta iota;
    try discriminate.
  - destruct s; discriminate.
  - destruct s; try discriminate.
    intros H5 H95.
    assert (Hlo : -50 < e \/ (e = -50 /\ 5629499534213120 < Zpos m)).
    { destruct (Z.compare_spec (-50) e) as [E|E|E]; try discriminate H5; [right|left; lia].
      split; [lia|].
      destruct (Pos.compare_cont Eq 5629499534213120 m) eqn:C; try discriminate H5.
      apply compare_cont_Lt in C. exact C. }
    assert (Hhi : e < -46 \/ (e = -46 /\ Zpos m < 6685030696878080)).
    { destruct (Z.compare_spec e (-46)) as [E|E|E]; try discriminate H95; [right|left; lia].
      split; [lia|].
      destruct (Pos.compare_cont Eq m 6685030696878080) eqn:C; try discriminate H95.
      apply compare_cont_Lt in C. exact C. }
    clear H5 H95.
    assert (He : -1074 < e) by lia.
    pose proof (normal_mantissa _ _ _ V He) as Hm. clear V He.
    change (2 ^ 52) with 4503599627370496 in Hm.
    change (2 ^ 53) with 9007199254740992 in Hm.
    eexists. split; [reflexivity|]. unfold cond_Zopp.
    assert (Hk : e = -50 \/ e = -49 \/ e = -48 \/ e = -47 \/ e = -46) by lia.
    destruct Hk as [->|[->|[->|[->| ->]]]].
    + rewrite shiftl_neg_div.
      change (2 ^ 50) with 1125899906842624. split.
      * apply Z.div_le_lower_bound; lia.
      * apply Z.lt_succ_r. apply Z.div_lt_upper_bound; lia.
    + rewrite shiftl_neg_div.
      change (2 ^ 49) with 562949953421312. split.
      * apply Z.div_le_lower_bound; lia.
      * apply Z.lt_succ_r. apply Z.div_lt_upper_bound; lia.
    + rewrite shiftl_neg_div.
      change (2 ^ 48) with 281474976710656. split.
      * apply Z.div_le_lower_bound; lia.
      * apply Z.lt_succ_r. apply Z.div_lt_upper_bound; lia.
    + rewrite shiftl_neg_div.
      change (2 ^ 47) with 140737488355328. split.
      * apply Z.div_le_lower_bound; lia.
      * apply Z.lt_succ_r. apply Z.div_lt_upper_bound; lia.
    + rewrite shiftl_neg_div.
      change (2 ^ 46) with 70368744177664. split.
      * apply Z.div_le_lower_bound; lia.
      * apply Z.lt_succ_r. apply Z.div_lt_upper_bound; lia.
Qed.

Lemma gt_not_below_zero (c x : float) :
  Py.gt c 0 = true -> Py.gt x c = true -> Py.lt x 0 = false.
Proof.
  unfold Py.gt, Py.lt. rewrite !FloatAxioms.ltb_spec.
  change (Prim2SF 0) with (S754_zero false).
  destruct (Prim2SF c) as [sc|sc| |sc mc ec]; try discriminate;
    destruct (Prim2SF x) as [s|s| |s m e]; try reflexivity;
    unfold SFltb, SFcompare; cbv beta iota;
    destruct sc; try discriminate; destruct s; try discriminate; reflexivity.
Qed.

(** [int] of a value that is not below zero is its floor. *)
Lemma int_is_floor (x : float) (z : Z) :
  Py.int x = Ok z -> Py.lt x 0 = false ->
  exists q, exact_value x = Some q
            /\ (inject_Z z <= q)%Q /\ (q < inject_Z z + 1)%Q.
Proof.
  unfold Py.int, Py.lt, exact_value. rewrite FloatAxioms.ltb_spec.
  change (Prim2SF 0) with (S754_zero false).
  destruct (Prim2SF x) as [s|s| |s m e]; try discriminate.
  - intros [= <-] _. exists 0%Q. repeat split; unfold Qle, Qlt; simpl; lia.
  - destruct s; [discriminate|]. intros [= <-] _. unfold cond_Zopp.
    destruct e as [|k|k].
    + eexists; split; [reflexivity|].
      unfold Qle, Qlt, Qplus, inject_Z; cbn [Qnum Qden]. lia.
    + eexists; split; [reflexivity|].
      unfold Qle, Qlt, Qplus, inject_Z; cbn [Qnum Qden]. lia.
    + eexists; split; [reflexivity|].
      rewrite shiftl_neg_div.
      unfold Qle, Qlt, Qplus, inject_Z; cbn [Qnum Qden].
      rewrite Pos2Z.inj_pow. change (Zpos 2) with 2.
      assert (Hd : 0 < 2 ^ Zpos k) by (apply Z.pow_pos_nonneg; lia).
      pose proof (Z.mul_div_le (Zpos m) _ Hd).
      pose proof (Z.mul_succ_div_gt (Zpos m) _ Hd).
      split; nia.
Qed.

Lemma SFcompare_antisym (x y : spec_float) :
  SFcompare y x = option_map CompOpp (SFcompare x y).
Proof.
  destruct x as [sx|sx| |sx mx ex], y as [sy|sy| |sy my ey];
    try reflexivity; try (destruct sx; reflexivity); try (destruct sy; reflexivity);
    try (destruct sx, sy; reflexivity).
  unfold SFcompare, option_map.
  destruct sx, sy; try reflexivity;
    rewrite (Z.compare_antisym ex ey); destruct (ex ?= ey); cbn [CompOpp];
    try reflexivity; f_equal;
    rewrite (Pos.compare_cont_antisym mx my Eq); reflexivity.
Qed.

Lemma ltb_asym (x y : float) : (x <? y)%float = true -> (y <? x)%float = false.
Proof.
  rewrite !FloatAxioms.ltb_spec. unfold SFltb.
  rewrite (SFcompare_antisym (Prim2SF x) (Prim2SF y)).
  destruct (SFcompare (Prim2SF x) (Prim2SF y)) as [[ | | ]|]; try discriminate.
  reflexivity.
Qed.

Lemma clamp_within (r : float) :
  Py.gt (clamp r) 95 = false /\ Py.lt (clamp r) 5 = false.
Proof.
  destruct (clamp_cases r) as [(-> & H5 & H95)|[(-> & _)|(-> & _)]];
    try (split; reflexivity).
  unfold Py.gt, Py.lt in *. split; now apply ltb_asym.
Qed.

(** The clamp followed by [int] always yields an integer from 5 to 95. *)
Lemma int_clamp (r : float) :
  exists s, Py.int (clamp r) = Ok s /\ 5 <= s <= 95 /\ Py.lt (clamp r) 0 = false.
Proof.
  destruct (clamp_cases r) as [(-> & H5 & H95)|[(-> & _)|(-> & _)]].
  - destruct (int_between r H5 H95) as (s & Hs & Hb).
    exists s. repeat split; try assumption; try lia.
    now apply gt_not_below_zero with (c := 5%float).
  - exists 5. repeat split; try reflexivity; lia.
  - exists 95. repeat split; try reflexivity; lia.
Qed.

(** *** Similar conditions *)

Lemma similarity_score_spec (wc current_weather : weather) :
  similarity_score wc current_weather = similarity_spec wc current_weather.
Proof.
  unfold similarity_score, similarity_spec, closeness.
  rewrite !(float_mul_comm 0.3), (float_mul_comm 0.4). reflexivity.
Qed.

Lemma similar_conditions_acc (current_weather : weather) (history : list outage) :
  forall acc,
    fold_left (similar_step current_weather) history acc
    = (acc ++ qualifying current_weather history)%list.
Proof.
  unfold qualifying.
  induction history as [|o history IH]; intros acc; simpl.
  - now rewrite app_nil_r.
  - rewrite IH. unfold similar_step. rewrite similarity_score_spec.
    destruct (Py.gt (similarity_spec (weather_conditions o) current_weather) 0.6).
    + now rewrite <- app_assoc.
    + reflexivity.
Qed.

Lemma similar_conditions_qualifying (current_weather : weather) (history : list outage) :
  similar_conditions current_weather history = qualifying current_weather history.
Proof. unfold similar_conditions. now rewrite similar_conditions_acc. Qed.

Lemma qualifying_above (current_weather : weather) (history : list outage) :
  Forall (fun s => Py.gt (snd s) 0.6 = true) (qualifying current_weather history).
Proof.
  apply Forall_forall. intros s Hs. unfold qualifying in Hs.
  apply filter_In in Hs. tauto.
Qed.

Lemma total_weight_positive (similar : list (outage * float)) :
  similar <> [] ->
  Forall (fun s => Py.gt (snd s) 0.6 = true) similar ->
  strictly_positive (total_weight similar).
Proof.
  intros Hne Hall.
  assert (Hpos : Forall strictly_positive (map snd similar)).
  { apply Forall_map. eapply Forall_impl; [|exact Hall].
    intros s Hs. now apply gt_positive with (c := 0.6%float). }
  unfold total_weight, Py.sum.
  destruct similar as [|s similar]; [congruence|].
  simpl in *. inversion Hpos as [|x l Hx Hl]; subst.
  rewrite add_zero_positive by assumption.
  now apply sum_positive.
Qed.

(** *** The z-score of the mean itself *)

Lemma z_score_at_mean (mean std : float) :
  negligible (Prim2SF (z_score mean mean std)) = true.
Proof.
  unfold z_score. destruct (Py.gt std 0); [|reflexivity].
  apply abs_negligible, div_negligible, sub_self_negligible.
Qed.

Lemma z_score_zero_std (current mean : float) :
  z_score current mean 0 = 0%float.
Proof. reflexivity. Qed.

(** *** The three anomaly rules against the per-dimension contributions *)

Lemma anomaly_rules_spec (current_weather : weather)
  (temp_mean wind_mean precip_mean temp_z wind_z precip_z : float) :
  precip_rule current_weather precip_mean precip_z
    (wind_rule current_weather wind_mean wind_z
       (temp_rule current_weather temp_mean temp_z (0, [])))
  = (contribution 30 15 temp_z + contribution 35 20 wind_z + contribution 25 15 precip_z,
     strong_factors current_weather temp_mean wind_mean precip_mean temp_z wind_z precip_z).
Proof.
  unfold precip_rule, wind_rule, temp_rule, contribution, strong_factors, strong_only,
    temp_factor.
  destruct (Py.gt temp_z 2), (Py.gt temp_z 1), (Py.gt wind_z 2), (Py.gt wind_z 1),
    (Py.gt precip_z 2), (Py.gt precip_z 1),
    (Py.lt (temp current_weather) temp_mean); reflexivity.
Qed.

Lemma contribution_bounds (strong moderate : Z) (z : float) :
  0 <= moderate <= strong -> 0 <= contribution strong moderate z <= strong.
Proof. unfold contribution. destruct (Py.gt z 2), (Py.gt z 1); lia. Qed.

Lemma anomaly_factors_spec_nonempty (strong : list string) :
  anomaly_factors_spec strong <> [].
Proof. destruct strong; discriminate. Qed.

Lemma anomaly_factors_default (factors : list string) :
  match factors with
  | [] => (factors ++ [normal_factor])%list
  | _ => factors
  end = anomaly_factors_spec factors.
Proof. destruct factors; reflexivity. Qed.

(** The detector as one equation: the three deviations first, then the
    score and factors the specification describes. *)
Lemma detect_weather_anomaly_unfold (current_weather : weather) (historical_data : list outage) :
  historical_data <> [] ->
  detect_weather_anomaly current_weather historical_data
  = (temp_std <- std_or_prior 10 (historical_temps historical_data) ;;
     wind_std <- std_or_prior 15 (historical_winds historical_data) ;;
     precip_std <- std_or_prior 1 (historical_precip historical_data) ;;
     let temp_mean := calculate_mean (historical_temps historical_data) in
     let wind_mean := calculate_mean (historical_winds historical_data) in
     let precip_mean := calculate_mean (historical_precip historical_data) in
     let temp_z := z_score (temp current_weather) temp_mean temp_std in
     let wind_z := z_score (wind_speed current_weather) wind_mean wind_std in
     let precip_z := z_score (precipitation current_weather) precip_mean precip_std in
     Ok (anomaly_score_spec temp_z wind_z precip_z,
         anomaly_factors_spec
           (strong_factors current_weather temp_mean wind_mean precip_mean
              temp_z wind_z precip_z)))%py.
Proof.
  intros Hne. unfold detect_weather_anomaly.
  destruct historical_data as [|h rest]; [congruence|].
  set (hist := h :: rest).
  destruct (std_or_prior 10 (historical_temps hist)) as [temp_std|e]; [|reflexivity].
  destruct (std_or_prior 15 (historical_winds hist)) as [wind_std|e]; [|reflexivity].
  destruct (std_or_prior 1 (historical_precip hist)) as [precip_std|e]; [|reflexivity].
  cbn [bind]. rewrite anomaly_rules_spec. cbv zeta.
  rewrite anomaly_factors_default. reflexivity.
Qed.

(** ** Risk scorer: when it returns *)

Lemma std_or_prior_single (prior : float) (values : list float) :
  (List.length values <= 1)%nat -> std_or_prior prior values = Ok prior.
Proof.
  intros H. unfold std_or_prior.
  destruct (Nat.ltb_spec 1 (List.length values)); [lia|reflexivity].
Qed.

(** The scorer returns as soon as the three deviations can be computed;
    nothing after them raises. *)
Lemma calculate_risk_score_returns (nbhd_id : string) (current_weather : weather)
  (temp_std wind_std precip_std : float) :
  std_or_prior 10 (historical_temps (neighborhood_history nbhd_id)) = Ok temp_std ->
  std_or_prior 15 (historical_winds (neighborhood_history nbhd_id)) = Ok wind_std ->
  std_or_prior 1 (historical_precip (neighborhood_history nbhd_id)) = Ok precip_std ->
  exists score factors,
    calculate_risk_score nbhd_id current_weather = Ok (score, factors).
Proof.
  intros Ht Hw Hp. unfold calculate_risk_score.
  destruct (neighborhood_history nbhd_id) as [|h rest] eqn:Hh; [eauto|].
  rewrite detect_weather_anomaly_unfold by discriminate.
  rewrite Ht, Hw, Hp. cbn [bind]. cbv zeta.
  match goal with
  | |- context [Py.int (clamp ?r)] => destruct (int_clamp r) as (s & -> & _)
  end.
  cbn [bind]. eauto.
Qed.

(** An exception of the scorer is an exception of the detector. *)
Lemma calculate_risk_score_raises (nbhd_id : string) (current_weather : weather) (e : exn) :
  calculate_risk_score nbhd_id current_weather = Raise e ->
  detect_weather_anomaly current_weather (neighborhood_history nbhd_id) = Raise e.
Proof.
  unfold calculate_risk_score.
  destruct (neighborhood_history nbhd_id) as [|h rest]; [discriminate|].
  destruct (detect_weather_anomaly current_weather (h :: rest)) as [[a f]|e'];
    cbn [bind]; [|congruence].
  destruct (int_clamp (accumulated_risk nbhd_id current_weather (h :: rest) a))
    as (s & -> & _).
  discriminate.
Qed.

Lemma std_or_prior_raises (prior : float) (values : list float) (e : exn) :
  std_or_prior prior values = Raise e -> e = OverflowError.
Proof.
  unfold std_or_prior. destruct (1 <? List.length values)%nat; [|discriminate].
  apply calculate_std_raises.
Qed.

Lemma detect_weather_anomaly_raises (current_weather : weather)
  (historical_data : list outage) (e : exn) :
  detect_weather_anomaly current_weather historical_data = Raise e ->
  e = OverflowError.
Proof.
  destruct historical_data as [|h rest]; [discriminate|].
  rewrite detect_weather_anomaly_unfold by discriminate.
  destruct (std_or_prior 10 _) as [temp_std|e1] eqn:H1;
    [|intros [= <-]; now apply std_or_prior_raises in H1].
  destruct (std_or_prior 15 _) as [wind_std|e2] eqn:H2;
    [|intros [= <-]; now apply std_or_prior_raises in H2].
  destruct (std_or_prior 1 _) as [precip_std|e3] eqn:H3;
    [|intros [= <-]; now apply std_or_prior_raises in H3].
  discriminate.
Qed.

(** The scorer raises nothing but the overflow of a squared deviation. *)
Lemma calculate_risk_score_only_overflow (nbhd_id : string) (current_weather : weather)
  (e : exn) :
  calculate_risk_score nbhd_id current_weather = Raise e -> e = OverflowError.
Proof.
  intros H. apply calculate_risk_score_raises in H.
  now apply detect_weather_anomaly_raises in H.
Qed.

(** ** The claims *)

Lemma clamp_then_int (r : float) :
  exists score, clamped_and_truncated r score /\ 5 <= score <= 95.
Proof.
  destruct (int_clamp r) as (s & Hs & Hb & Hlt).
  destruct (int_is_floor _ _ Hs Hlt) as (q & Hq & Hle & Hgt).
  exists s. split; [|assumption]. unfold clamped_and_truncated. cbv zeta.
  split; [apply clamp_within|]. split; [exact Hs|]. exists q. auto.
Qed.

Lemma clamped_and_truncated_fun (r : float) (score score' : Z) :
  clamped_and_truncated r score -> Py.int (clamp r) = Ok score' -> score = score'.
Proof. intros (_ & Hs & _) Hs'. congruence. Qed.

Lemma returned_score_in_range
  (nbhd_id : string) (current_weather : weather) (score : Z) (factors : list string) :
  calculate_risk_score nbhd_id current_weather = Ok (score, factors) ->
  exists risk_score,
    clamped_and_truncated risk_score score
    /\ 5 <= score <= 95
    /\ (neighborhood_history nbhd_id = [] /\ risk_score = 30%float /\ score = 30
        \/ exists anomaly_score,
             detect_weather_anomaly current_weather (neighborhood_history nbhd_id)
             = Ok (anomaly_score, factors)
             /\ risk_score
                = accumulated_risk nbhd_id current_weather
                    (neighborhood_history nbhd_id) anomaly_score).
Proof.
  unfold calculate_risk_score.
  destruct (neighborhood_history nbhd_id) as [|h rest] eqn:Hh.
  - intros [= <- <-]. exists 30%float.
    destruct (clamp_then_int 30) as (s & Hs & Hb).
    rewrite (clamped_and_truncated_fun 30 s 30 Hs eq_refl) in Hs.
    split; [exact Hs|]. split; [lia|]. left. repeat split.
  - destruct (detect_weather_anomaly current_weather (h :: rest)) as [[a f]|e];
      cbn [bind]; [|discriminate].
    set (r := accumulated_risk nbhd_id current_weather (h :: rest) a).
    destruct (clamp_then_int r) as (s & Hs & Hb).
    destruct Hs as (Hwithin & Hint & Hfloor).
    rewrite Hint. cbn [bind]. intros [= <- <-].
    exists r. split; [now split|]. split; [assumption|].
    right. exists a. split; reflexivity.
Qed.

(** C1. Whatever the neighborhood and the weather, a score that
    [calculate_risk_score] returns is an integer between 5 and 95: it is
    [int] of a value clamped to the interval from 5 to 95, the value being
    the accumulated score or, without history, the constant 30, which the
    clamp and [int] leave as it is.  [int] takes the integer part: the score
    is the largest integer not above the clamped value, so 47.9 gives 47 and
    never 48.  The call returns unless, with two or more records, the
    square of a deviation overflows. *)
Theorem risk_score_clamped_and_truncated (nbhd_id : string) (current_weather : weather) :
  (exists score factors risk_score,
      calculate_risk_score nbhd_id current_weather = Ok (score, factors)
      /\ clamped_and_truncated risk_score score
      /\ 5 <= score <= 95
      /\ (neighborhood_history nbhd_id = [] /\ risk_score = 30%float /\ score = 30
          \/ exists anomaly_score,
               detect_weather_anomaly current_weather (neighborhood_history nbhd_id)
               = Ok (anomaly_score, factors)
               /\ risk_score
                  = accumulated_risk nbhd_id current_weather
                      (neighborhood_history nbhd_id) anomaly_score))
  \/ (calculate_risk_score nbhd_id current_weather = Raise OverflowError
      /\ (2 <= List.length (neighborhood_history nbhd_id))%nat).
Proof.
  destruct (calculate_risk_score nbhd_id current_weather) as [[score factors]|e] eqn:Hrun.
  - left. destruct (returned_score_in_range _ _ _ _ Hrun) as (r & Hr).
    exists score, factors, r. split; [reflexivity|exact Hr].
  - right. pose proof (calculate_risk_score_only_overflow _ _ _ Hrun) as ->.
    split; [reflexivity|].
    destruct (Nat.le_gt_cases 2 (List.length (neighborhood_history nbhd_id)))
      as [Hlen|Hlen]; [assumption|exfalso].
    destruct (calculate_risk_score_returns nbhd_id current_weather 10 15 1)
      as (score & factors & Hok);
      try (apply std_or_prior_single;
           unfold historical_temps, historical_winds, historical_precip;
           rewrite length_map; lia).
    congruence.
Qed.

(** C2. A neighborhood that no historical record names gets, whatever the
    weather, exactly the score 30 and the single factor "Limited historical
    data for this area": the scorer returns before it looks at anything else. *)
Theorem no_history_short_circuit (nbhd_id : string) (current_weather : weather) :
  (forall o, In o historical_outages -> neighborhood_id o <> nbhd_id) ->
  calculate_risk_score nbhd_id current_weather
  = Ok (30, ["Limited historical data for this area"]).
Proof.
  intros Hnone. unfold calculate_risk_score.
  assert (Hempty : neighborhood_history nbhd_id = []).
  { unfold neighborhood_history.
    destruct (filter (fun o => String.eqb (neighborhood_id o) nbhd_id) historical_outages)
      as [|o rest] eqn:Hf; [reflexivity|].
    assert (Hin : In o (filter (fun o => String.eqb (neighborhood_id o) nbhd_id)
                          historical_outages)) by (rewrite Hf; now left).
    apply filter_In in Hin as [Hin Heq]. apply String.eqb_eq in Heq.
    now elim (Hnone o Hin). }
  now rewrite Hempty.
Qed.

(** C3. With at least one historical record, the detector's score is the sum
    of the three per-dimension contributions (temperature 30 or 15, wind 35
    or 20, precipitation 25 or 15, for a z-score above 2 or above 1), capped
    at 100; the factors are those of the dimensions above 2, in the order
    temperature, wind, precipitation, or the single "within normal range"
    string when there is none; so the factor list of a returned result is
    never empty. *)
Theorem anomaly_score_and_factors (current_weather : weather) (historical_data : list outage) :
  historical_data <> [] ->
  detect_weather_anomaly current_weather historical_data
  = (temp_std <- std_or_prior 10 (historical_temps historical_data) ;;
     wind_std <- std_or_prior 15 (historical_winds historical_data) ;;
     precip_std <- std_or_prior 1 (historical_precip historical_data) ;;
     let temp_mean := calculate_mean (historical_temps historical_data) in
     let wind_mean := calculate_mean (historical_winds historical_data) in
     let precip_mean := calculate_mean (historical_precip historical_data) in
     let temp_z := z_score (temp current_weather) temp_mean temp_std in
     let wind_z := z_score (wind_speed current_weather) wind_mean wind_std in
     let precip_z := z_score (precipitation current_weather) precip_mean precip_std in
     Ok (anomaly_score_spec temp_z wind_z precip_z,
         anomaly_factors_spec
           (strong_factors current_weather temp_mean wind_mean precip_mean
              temp_z wind_z precip_z)))%py
  /\ (forall score factors,
        detect_weather_anomaly current_weather historical_data = Ok (score, factors) ->
        factors <> [] /\ 0 <= score <= 100).
Proof.
  intros Hne. split; [now apply detect_weather_anomaly_unfold|].
  intros score factors. rewrite detect_weather_anomaly_unfold by assumption.
  destruct (std_or_prior 10 _) as [temp_std|e]; [|discriminate].
  destruct (std_or_prior 15 _) as [wind_std|e]; [|discriminate].
  destruct (std_or_prior 1 _) as [precip_std|e]; [|discriminate].
  cbn [bind]. cbv zeta. intros [= <- <-]. split.
  - apply anomaly_factors_spec_nonempty.
  - unfold anomaly_score_spec.
    match goal with
    | |- context [contribution 30 15 ?a + contribution 35 20 ?b + contribution 25 15 ?c] =>
        pose proof (contribution_bounds 30 15 a ltac:(lia));
        pose proof (contribution_bounds 35 20 b ltac:(lia));
        pose proof (contribution_bounds 25 15 c ltac:(lia))
    end.
    lia.
Qed.

(** The detector finds nothing when the current weather is the historical
    mean, whatever the deviations are. *)
Lemma no_anomaly_at_mean (current_weather : weather) (historical_data : list outage)
  (temp_std wind_std precip_std : float) :
  historical_data <> [] ->
  temp current_weather = calculate_mean (historical_temps historical_data) ->
  wind_speed current_weather = calculate_mean (historical_winds historical_data) ->
  precipitation current_weather = calculate_mean (historical_precip historical_data) ->
  std_or_prior 10 (historical_temps historical_data) = Ok temp_std ->
  std_or_prior 15 (historical_winds historical_data) = Ok wind_std ->
  std_or_prior 1 (historical_precip historical_data) = Ok precip_std ->
  detect_weather_anomaly current_weather historical_data = Ok (0, [normal_factor]).
Proof.
  intros Hne Ht Hw Hp St Sw Sp.
  rewrite detect_weather_anomaly_unfold by assumption.
  rewrite St, Sw, Sp. cbn [bind]. cbv zeta. rewrite Ht, Hw, Hp.
  unfold anomaly_score_spec, strong_factors, strong_only, contribution, Py.gt.
  rewrite !(negligible_not_gt 2), !(negligible_not_gt 1)
    by (reflexivity || apply z_score_at_mean).
  reflexivity.
Qed.

Lemma identical_dimension (f : weather -> float) (w : weather) (historical_data : list outage) :
  (forall h, In h historical_data -> weather_conditions h = w) ->
  Forall (eq (f w)) (map (fun h => f (weather_conditions h)) historical_data).
Proof.
  intros Hsame. apply Forall_forall. intros v Hv.
  apply in_map_iff in Hv as (h & <- & Hin). now rewrite (Hsame h Hin).
Qed.

(** C4. With two or more historical records that all carry the same weather,
    and a current weather equal to the historical mean in each dimension,
    what the detector returns is the score 0 and the single factor "Weather
    conditions within normal range".  It returns as soon as the three
    standard deviations are computed, and the only other outcome is the
    overflow of a squared deviation; when the computed means are the common
    values themselves, the three deviations are 0 and it returns.  A
    standard deviation of 0 gives the z-score 0. *)
Theorem uniform_history_within_normal_range
  (current_weather w : weather) (historical_data : list outage) :
  (2 <= List.length historical_data)%nat ->
  (forall h, In h historical_data -> weather_conditions h = w) ->
  temp current_weather = calculate_mean (historical_temps historical_data) ->
  wind_speed current_weather = calculate_mean (historical_winds historical_data) ->
  precipitation current_weather = calculate_mean (historical_precip historical_data) ->
  (detect_weather_anomaly current_weather historical_data = Ok (0, [normal_factor])
   \/ detect_weather_anomaly current_weather historical_data = Raise OverflowError)
  /\ (forall temp_std wind_std precip_std,
        calculate_std (historical_temps historical_data) = Ok temp_std ->
        calculate_std (historical_winds historical_data) = Ok wind_std ->
        calculate_std (historical_precip historical_data) = Ok precip_std ->
        detect_weather_anomaly current_weather historical_data = Ok (0, [normal_factor]))
  /\ (Py.is_finite (temp w) = true -> Py.is_finite (wind_speed w) = true ->
      Py.is_finite (precipitation w) = true ->
      temp current_weather = temp w -> wind_speed current_weather = wind_speed w ->
      precipitation current_weather = precipitation w ->
      Z.of_nat (List.length historical_data) < 2 ^ 63 ->
      calculate_std (historical_temps historical_data) = Ok 0%float
      /\ calculate_std (historical_winds historical_data) = Ok 0%float
      /\ calculate_std (historical_precip historical_data) = Ok 0%float
      /\ detect_weather_anomaly current_weather historical_data = Ok (0, [normal_factor]))
  /\ (forall current mean, z_score current mean 0 = 0%float).
Proof.
  intros Hlen Hsame Ht Hw Hp.
  assert (Hne : historical_data <> [])
    by (destruct historical_data; simpl in *; [lia|discriminate]).
  assert (Hprior : forall prior values,
             (2 <= List.length values)%nat ->
             std_or_prior prior values = calculate_std values).
  { intros prior values H. unfold std_or_prior.
    destruct (Nat.ltb_spec 1 (List.length values)); [reflexivity|lia]. }
  assert (Hok : forall temp_std wind_std precip_std,
             std_or_prior 10 (historical_temps historical_data) = Ok temp_std ->
             std_or_prior 15 (historical_winds historical_data) = Ok wind_std ->
             std_or_prior 1 (historical_precip historical_data) = Ok precip_std ->
             detect_weather_anomaly current_weather historical_data
             = Ok (0, [normal_factor])).
  { intros ts ws ps St Sw Sp. now apply no_anomaly_at_mean with ts ws ps. }
  assert (Hstd : forall temp_std wind_std precip_std,
             calculate_std (historical_temps historical_data) = Ok temp_std ->
             calculate_std (historical_winds historical_data) = Ok wind_std ->
             calculate_std (historical_precip historical_data) = Ok precip_std ->
             detect_weather_anomaly current_weather historical_data
             = Ok (0, [normal_factor])).
  { intros ts ws ps St Sw Sp.
    apply Hok with ts ws ps; rewrite Hprior; try assumption;
      unfold historical_temps, historical_winds, historical_precip;
      now rewrite length_map. }
  split; [|split; [exact Hstd|split; [|apply z_score_zero_std]]].
  - destruct (std_or_prior 10 (historical_temps historical_data)) as [ts|e1] eqn:St;
      [destruct (std_or_prior 15 (historical_winds historical_data)) as [ws|e2] eqn:Sw;
       [destruct (std_or_prior 1 (historical_precip historical_data)) as [ps|e3] eqn:Sp|]|].
    + left. now apply Hok with ts ws ps.
    + right. rewrite detect_weather_anomaly_unfold, St, Sw, Sp by assumption.
      now rewrite (std_or_prior_raises _ _ _ Sp).
    + right. rewrite detect_weather_anomaly_unfold, St, Sw by assumption.
      now rewrite (std_or_prior_raises _ _ _ Sw).
    + right. rewrite detect_weather_anomaly_unfold, St by assumption.
      now rewrite (std_or_prior_raises _ _ _ St).
  - intros Ft Fw Fp Et Ew Ep Hbound.
    assert (St : calculate_std (historical_temps historical_data) = Ok 0%float).
    { apply calculate_std_identical with (x := temp w); try assumption.
      - now apply (identical_dimension temp).
      - congruence.
      - unfold historical_temps. now rewrite length_map. }
    assert (Sw : calculate_std (historical_winds historical_data) = Ok 0%float).
    { apply calculate_std_identical with (x := wind_speed w); try assumption.
      - now apply (identical_dimension wind_speed).
      - congruence.
      - unfold historical_winds. now rewrite length_map. }
    assert (Sp : calculate_std (historical_precip historical_data) = Ok 0%float).
    { apply calculate_std_identical with (x := precipitation w); try assumption.
      - now apply (identical_dimension precipitation).
      - congruence.
      - unfold historical_precip. now rewrite length_map. }
    repeat split; try assumption. now apply Hstd with 0%float 0%float 0%float.
Qed.

(** *** Environmental bands and the accumulated score *)

Lemma first_match_wins (pre post : list (bool * Z)) (points : Z) :
  Forall (fun b => fst b = false) pre ->
  first_match (pre ++ (true, points) :: post) = points.
Proof.
  induction pre as [|[cond p] pre IH]; intros Hpre; simpl; [reflexivity|].
  inversion Hpre as [|b l Hb Hl]; subst. simpl in Hb. subst cond. now apply IH.
Qed.

Lemma accumulated_risk_unfold (nbhd_id : string) (current_weather : weather)
  (history : list outage) (anomaly_score : Z) :
  accumulated_risk nbhd_id current_weather history anomaly_score
  = let before_infrastructure :=
      (Py.float_of_int anomaly_score * 0.4
       + historical_term (similar_conditions current_weather history)
       + Py.float_of_int (environmental_risk current_weather) * 0.2)%float in
    match find_neighborhood nbhd_id with
    | Some n => (before_infrastructure + infrastructure_term n)%float
    | None => before_infrastructure
    end.
Proof. reflexivity. Qed.

(** C5. The environmental term is the sum of three chains of bands,
    temperature, wind and precipitation; in each chain the first band whose
    condition holds gives the points and no later band adds to them (at -6
    degrees both the first and the second temperature band hold, and the
    contribution is 15); the sum is multiplied by 0.2 when it is added to
    the risk score. *)
Theorem environmental_bands_first_match :
  (forall current_weather,
      environmental_risk current_weather
      = first_match (temp_bands (temp current_weather))
        + first_match (wind_bands (wind_speed current_weather))
        + first_match (precip_bands (precipitation current_weather)))
  /\ (forall pre post points,
        Forall (fun b => fst b = false) pre ->
        first_match (pre ++ (true, points) :: post) = points)
  /\ (temp_bands (-6) = [(true, 15); (true, 10); (false, 5)]
      /\ env_temp_rule (-6) 0 = 15)
  /\ (forall nbhd_id current_weather history anomaly_score,
        accumulated_risk nbhd_id current_weather history anomaly_score
        = let before_infrastructure :=
            (Py.float_of_int anomaly_score * 0.4
             + historical_term (similar_conditions current_weather history)
             + Py.float_of_int (environmental_risk current_weather) * 0.2)%float in
          match find_neighborhood nbhd_id with
          | Some n => (before_infrastructure + infrastructure_term n)%float
          | None => before_infrastructure
          end).
Proof.
  split; [|split; [|split]].
  - intros cw. unfold environmental_risk, env_temp_rule, env_wind_rule,
      env_precip_rule, temp_bands, wind_bands, precip_bands, first_match.
    destruct (Py.lt (temp cw) (-5)), (Py.lt (temp cw) 0), (Py.gt (temp cw) 35),
      (Py.gt (temp cw) 30), (Py.gt (wind_speed cw) 60), (Py.gt (wind_speed cw) 50),
      (Py.gt (wind_speed cw) 35), (Py.gt (precipitation cw) 4),
      (Py.gt (precipitation cw) 3), (Py.gt (precipitation cw) 2); reflexivity.
  - exact first_match_wins.
  - split; reflexivity.
  - intros. apply accumulated_risk_unfold.
Qed.

(** *** Qualifying records *)

Lemma gt_irrefl (x : float) : Py.gt x x = false.
Proof. apply ltb_irrefl. Qed.

Lemma in_similar_conditions (current_weather : weather) (history : list outage)
  (o : outage) (s : float) :
  In (o, s) (similar_conditions current_weather history)
  <-> In o history
      /\ s = similarity_spec (weather_conditions o) current_weather
      /\ Py.gt s 0.6 = true.
Proof.
  rewrite similar_conditions_qualifying. unfold qualifying.
  rewrite filter_In, in_map_iff. simpl. split.
  - intros [(o' & [= <- <-] & Hin) Hgt]. auto.
  - intros (Hin & -> & Hgt). split; [|assumption]. exists o. auto.
Qed.

Lemma historical_term_qualifying (similar : list (outage * float)) :
  similar <> [] ->
  Forall (fun s => Py.gt (snd s) 0.6 = true) similar ->
  Py.gt (total_weight similar) 0 = true
  /\ outage_probability similar = weighted_fraction similar
  /\ historical_term similar = (weighted_fraction similar * 40)%float.
Proof.
  intros Hne Hall.
  assert (Hpos : Py.gt (total_weight similar) 0 = true).
  { apply positive_gt_zero. now apply total_weight_positive. }
  assert (Hprob : outage_probability similar = weighted_fraction similar).
  { unfold outage_probability. now rewrite Hpos. }
  repeat split; try assumption.
  unfold historical_term. destruct similar; [congruence|]. now rewrite Hprob.
Qed.

(** C6. A record enters the similarity-weighted lookup exactly when its
    weighted similarity, 0.3, 0.4 and 0.3 times the closeness in temperature,
    wind and precipitation, is strictly above 0.6; a record whose similarity
    is exactly 0.6 stays out.  When some record qualifies, the block adds 40
    times the weighted fraction of qualifying records that saw an outage;
    when none does, it adds 20. *)
Theorem similarity_threshold_is_strict (current_weather : weather) (history : list outage) :
  (forall o s,
      In (o, s) (similar_conditions current_weather history)
      <-> In o history
          /\ s = similarity_spec (weather_conditions o) current_weather
          /\ Py.gt s 0.6 = true)
  /\ (forall o s,
        similarity_spec (weather_conditions o) current_weather = 0.6%float ->
        ~ In (o, s) (similar_conditions current_weather history))
  /\ (similar_conditions current_weather history <> [] ->
      historical_term (similar_conditions current_weather history)
      = (weighted_fraction (similar_conditions current_weather history) * 40)%float)
  /\ (similar_conditions current_weather history = [] ->
      historical_term (similar_conditions current_weather history) = 20%float).
Proof.
  split; [|split; [|split]].
  - intros o s. apply in_similar_conditions.
  - intros o s Heq Hin. apply in_similar_conditions in Hin as (_ & -> & Hgt).
    rewrite Heq in Hgt. rewrite gt_irrefl in Hgt. discriminate.
  - intros Hne. apply historical_term_qualifying; [assumption|].
    rewrite similar_conditions_qualifying. apply qualifying_above.
  - intros ->. reflexivity.
Qed.

(** C10. As soon as one record qualifies, the total similarity weight is
    strictly positive, every qualifying similarity being above 0.6; the
    outage probability is then the weighted fraction, and the default 0.5
    for a zero total is never taken. *)
Theorem total_weight_strictly_positive (current_weather : weather) (history : list outage) :
  similar_conditions current_weather history <> [] ->
  Forall (fun s => Py.gt (snd s) 0.6 = true) (similar_conditions current_weather history)
  /\ Py.gt (total_weight (similar_conditions current_weather history)) 0 = true
  /\ outage_probability (similar_conditions current_weather history)
     = weighted_fraction (similar_conditions current_weather history).
Proof.
  intros Hne.
  assert (Hall : Forall (fun s => Py.gt (snd s) 0.6 = true)
                   (similar_conditions current_weather history)).
  { rewrite similar_conditions_qualifying. apply qualifying_above. }
  split; [assumption|].
  destruct (historical_term_qualifying _ Hne Hall) as (Hpos & Hprob & _).
  now split.
Qed.

(** *** Risk level and explanation *)

Lemma prefix_app (a b : string) : prefix a (a ++ b) = true.
Proof.
  induction a as [|c a IH]; simpl; [now destruct b|].
  destruct (ascii_dec c c); [assumption|congruence].
Qed.

Lemma fallback_explanation_band (nbhd_id : string) (risk_score : Z) (w : weather)
  (anomaly_factors : list string) :
  exists rest,
    generate_fallback_explanation nbhd_id risk_score w anomaly_factors
    = (band_label (score_band risk_score) ++ " risk of power outage in ") ++ rest.
Proof.
  unfold generate_fallback_explanation, score_band.
  destruct (risk_score <? 40); [|destruct (risk_score <? 70)].
  - eexists. cbn [band_label]. reflexivity.
  - eexists. cbn [band_label]. reflexivity.
  - destruct (main_concern_and_action w) as [main_concern action].
    eexists. cbn [band_label]. reflexivity.
Qed.

(** C7. The level reported with a score follows the same thresholds wherever
    it is computed: below 40 it is "Low", from 40 to 69 "Moderate", from 70
    on "High"; the response and the prompt use the same expression, and the
    rule-based explanation opens with the very level the response reports,
    for every integer score. *)
Theorem risk_level_thresholds_agree (risk_score : Z) :
  risk_level risk_score = band_label (score_band risk_score)
  /\ prompt_risk_level risk_score = risk_level risk_score
  /\ (risk_score < 40 <-> risk_level risk_score = "Low")
  /\ (40 <= risk_score < 70 <-> risk_level risk_score = "Moderate")
  /\ (70 <= risk_score <-> risk_level risk_score = "High")
  /\ (forall nbhd_id w anomaly_factors,
        prefix (risk_level risk_score ++ " risk of power outage in ")
          (generate_fallback_explanation nbhd_id risk_score w anomaly_factors) = true).
Proof.
  assert (Hlevel : risk_level risk_score = band_label (score_band risk_score)).
  { unfold risk_level, score_band.
    destruct (risk_score <? 40); [|destruct (risk_score <? 70)]; reflexivity. }
  split; [exact Hlevel|]. split; [reflexivity|].
  split; [|split; [|split]].
  - unfold risk_level.
    destruct (Z.ltb_spec risk_score 40); [|destruct (Z.ltb_spec risk_score 70)];
      split; intros; try reflexivity; try discriminate; lia.
  - unfold risk_level.
    destruct (Z.ltb_spec risk_score 40); [|destruct (Z.ltb_spec risk_score 70)];
      split; intros; try reflexivity; try discriminate; lia.
  - unfold risk_level.
    destruct (Z.ltb_spec risk_score 40); [|destruct (Z.ltb_spec risk_score 70)];
      split; intros; try reflexivity; try discriminate; lia.
  - intros nbhd_id w fs. rewrite Hlevel.
    destruct (fallback_explanation_band nbhd_id risk_score w fs) as (rest & ->).
    apply prefix_app.
Qed.

(** C8, as amended. The rule-based explanation is a function of the
    neighborhood's display name, the band of the score and the weather: two
    calls that agree on these three produce the same text, whatever the
    exact scores and the anomaly factors are. *)
Theorem fallback_explanation_deterministic
  (id1 id2 : string) (score1 score2 : Z) (w : weather) (factors1 factors2 : list string) :
  neighborhood_name id1 = neighborhood_name id2 ->
  score_band score1 = score_band score2 ->
  generate_fallback_explanation id1 score1 w factors1
  = generate_fallback_explanation id2 score2 w factors2.
Proof.
  intros Hname Hband. unfold generate_fallback_explanation, score_band in *.
  rewrite Hname.
  destruct (score1 <? 40), (score2 <? 40), (score1 <? 70), (score2 <? 70);
    try discriminate Hband; reflexivity.
Qed.

(** *** Weather adapter *)

Lemma fetch_failure_classes :
  fetch_forecast ConnectionFailed = Raise ConnectionError
  /\ fetch_forecast TimedOut = Raise RequestTimeout
  /\ (forall status body,
        400 <= status < 600 -> fetch_forecast (Responded status body) = Raise HTTPError)
  /\ (forall status,
        ~ 400 <= status < 600 ->
        fetch_forecast (Responded status None) = Raise JSONDecodeError)
  /\ (forall status fields,
        ~ 400 <= status < 600 -> lookup "list" fields = None ->
        fetch_forecast (Responded status (Some (JObj fields))) = Raise KeyError).
Proof.
  repeat split.
  - intros status body H. unfold fetch_forecast, http_get_json.
    destruct (Z.leb_spec 400 status), (Z.ltb_spec status 600); try lia. reflexivity.
  - intros status H. unfold fetch_forecast, http_get_json.
    destruct (Z.leb_spec 400 status), (Z.ltb_spec status 600); try lia; reflexivity.
  - intros status fields H Hl. unfold fetch_forecast, http_get_json.
    destruct (Z.leb_spec 400 status), (Z.ltb_spec status 600); try lia;
      cbn [andb bind subscript]; now rewrite Hl.
Qed.

(** C9. Whatever goes wrong while the forecast is fetched and decoded (no
    connection, a timeout, an error status, a body that is not JSON or lacks
    an expected field), the adapter raises nothing and returns exactly the
    fixed forecast of 15.0 degrees, 25.0 km/h and 1.5 mm. *)
Theorem weather_failure_returns_fallback :
  let fallback :=
    {| temp := 15.0%float; wind_speed := 25.0%float; precipitation := 1.5%float |} in
  (forall reply e,
      fetch_forecast reply = Raise e -> get_weather_forecast reply = fallback)
  /\ get_weather_forecast ConnectionFailed = fallback
  /\ get_weather_forecast TimedOut = fallback
  /\ (forall status body,
        400 <= status < 600 -> get_weather_forecast (Responded status body) = fallback)
  /\ (forall status, get_weather_forecast (Responded status None) = fallback)
  /\ (forall status fields,
        lookup "list" fields = None ->
        get_weather_forecast (Responded status (Some (JObj fields))) = fallback).
Proof.
  intros fallback.
  assert (Hraise : forall reply e,
             fetch_forecast reply = Raise e -> get_weather_forecast reply = fallback).
  { intros reply e H. unfold get_weather_forecast. now rewrite H. }
  destruct fetch_failure_classes as (Hc & Ht & Hs & Hj & Hk).
  split; [|split; [|split; [|split; [|split]]]].
  - exact Hraise.
  - exact (Hraise _ _ Hc).
  - exact (Hraise _ _ Ht).
  - intros status body H. exact (Hraise _ _ (Hs status body H)).
  - intros status.
    destruct (Z.leb_spec 400 status), (Z.ltb_spec status 600);
      solve [ apply (Hraise _ _ (Hj status ltac:(lia)))
            | apply (Hraise _ _ (Hs status None ltac:(lia))) ].
  - intros status fields Hl.
    destruct (Z.leb_spec 400 status), (Z.ltb_spec status 600);
      solve [ apply (Hraise _ _ (Hk status fields ltac:(lia) Hl))
            | apply (Hraise _ _ (Hs status _ ltac:(lia))) ].
Qed.

(** ** Further properties of the code *)

(** *** Statistics helpers *)

Lemma SFsqrt_not_negative (x : spec_float) :
  not_negative x = true -> not_negative (SF64sqrt x) = true.
Proof.
  destruct x as [s|s| |s m e]; try (destruct s; try discriminate); intros _;
    try reflexivity.
  unfold SF64sqrt, SFsqrt.
  destruct (SFsqrt_core_binary prec emax (Zpos m) e) as [[mz ez] lz].
  apply binary_round_aux_not_negative.
Qed.

Lemma calculate_std_not_negative (values : list float) (std : float) :
  calculate_std values = Ok std -> not_negative (Prim2SF std) = true.
Proof.
  unfold calculate_std. destruct (List.length values <? 2)%nat.
  - intros [= <-]. reflexivity.
  - destruct (mapM _ values) as [squares|e] eqn:Hsq; cbn [bind]; [|discriminate].
    unfold Py.sqrt.
    assert (Hv : not_negative
                   (Prim2SF (Py.sum squares
                             / Py.float_of_int (Z.of_nat (List.length values)))) = true).
    { rewrite div_spec. apply SFdiv_not_negative.
      - apply sum_not_negative; [reflexivity|]. now apply squares_ok in Hsq.
      - apply float_of_len_not_negative. }
    rewrite (not_negative_not_below_zero _ Hv). intros [= <-].
    rewrite sqrt_spec. now apply SFsqrt_not_negative.
Qed.

(** X1. [calculate_std] never hands [math.sqrt] a value below zero: either
    it returns a deviation that is not below zero (0 for fewer than two
    values), or the square of a deviation overflowed and it raises
    [OverflowError]; no other exception leaves it. *)
Theorem calculate_std_outcomes (values : list float) :
  ((exists std, calculate_std values = Ok std /\ Py.lt std 0 = false)
   \/ calculate_std values = Raise OverflowError)
  /\ ((List.length values < 2)%nat -> calculate_std values = Ok 0%float).
Proof.
  split.
  - destruct (calculate_std values) as [std|e] eqn:Hstd.
    + left. exists std. split; [reflexivity|].
      apply not_negative_not_below_zero. now apply calculate_std_not_negative in Hstd.
    + right. now rewrite (calculate_std_raises values e Hstd).
  - intros Hlen. unfold calculate_std.
    destruct (Nat.ltb_spec (List.length values) 2); [reflexivity|lia].
Qed.

(** *** Anomaly detector *)

Lemma contribution_values (strong moderate : Z) (z : float) :
  contribution strong moderate z = strong
  \/ contribution strong moderate z = moderate
  \/ contribution strong moderate z = 0.
Proof. unfold contribution. destruct (Py.gt z 2), (Py.gt z 1); auto. Qed.

Lemma detect_weather_anomaly_returned (current_weather : weather)
  (historical_data : list outage) (score : Z) (factors : list string) :
  historical_data <> [] ->
  detect_weather_anomaly current_weather historical_data = Ok (score, factors) ->
  exists temp_mean wind_mean precip_mean temp_z wind_z precip_z,
    score = anomaly_score_spec temp_z wind_z precip_z
    /\ factors = anomaly_factors_spec
                   (strong_factors current_weather temp_mean wind_mean precip_mean
                      temp_z wind_z precip_z).
Proof.
  intros Hne. rewrite detect_weather_anomaly_unfold by assumption.
  destruct (std_or_prior 10 _) as [temp_std|e]; [|discriminate].
  destruct (std_or_prior 15 _) as [wind_std|e]; [|discriminate].
  destruct (std_or_prior 1 _) as [precip_std|e]; [|discriminate].
  cbn [bind]. cbv zeta. intros [= <- <-].
  do 6 eexists. split; reflexivity.
Qed.

(** X2. The score the detector returns lies between 0 and 90 and is a
    multiple of 5: the three contributions add up to 90 at most, so the cap
    [min(100, anomaly_score)] never changes the sum. *)
Theorem anomaly_score_never_reaches_cap :
  (forall temp_z wind_z precip_z,
      anomaly_score_spec temp_z wind_z precip_z
      = contribution 30 15 temp_z + contribution 35 20 wind_z
        + contribution 25 15 precip_z)
  /\ (forall current_weather historical_data score factors,
        detect_weather_anomaly current_weather historical_data = Ok (score, factors) ->
        0 <= score <= 90 /\ score mod 5 = 0).
Proof.
  assert (Hspec : forall temp_z wind_z precip_z,
             anomaly_score_spec temp_z wind_z precip_z
             = contribution 30 15 temp_z + contribution 35 20 wind_z
               + contribution 25 15 precip_z
             /\ 0 <= anomaly_score_spec temp_z wind_z precip_z <= 90
             /\ anomaly_score_spec temp_z wind_z precip_z mod 5 = 0).
  { intros tz wz pz. unfold anomaly_score_spec.
    destruct (contribution_values 30 15 tz) as [-> |[-> | ->]],
             (contribution_values 35 20 wz) as [-> |[-> | ->]],
             (contribution_values 25 15 pz) as [-> |[-> | ->]];
      repeat split; try reflexivity; try lia. }
  split; [intros; apply Hspec|].
  intros cw hist score factors Hrun.
  destruct hist as [|h rest].
  - injection Hrun as <- <-. split; [lia|reflexivity].
  - apply detect_weather_anomaly_returned in Hrun as (tm & wm & pm & tz & wz & pz & -> & _);
      [|discriminate].
    apply Hspec.
Qed.

Lemma strong_only_length (z : float) (factor : string) :
  (List.length (strong_only z factor) <= 1)%nat
  /\ (strong_only z factor = [] <-> Py.gt z 2 = false).
Proof.
  unfold strong_only. destruct (Py.gt z 2); simpl; split; try lia;
    split; intros; congruence.
Qed.

(** X3. With history, what the detector returns has one of two shapes:
    the single "within normal range" factor with a score of 50 at most
    (moderate deviations raise the score without being named), or one to
    three named factors with a score of 25 at least. *)
Theorem anomaly_factors_shape (current_weather : weather)
  (historical_data : list outage) (score : Z) (factors : list string) :
  historical_data <> [] ->
  detect_weather_anomaly current_weather historical_data = Ok (score, factors) ->
  (factors = [normal_factor] /\ score <= 50)
  \/ ((1 <= List.length factors <= 3)%nat /\ 25 <= score).
Proof.
  intros Hne Hrun.
  apply detect_weather_anomaly_returned in Hrun
    as (tm & wm & pm & tz & wz & pz & -> & ->); [|assumption].
  unfold anomaly_score_spec, strong_factors, strong_only, contribution.
  destruct (Py.gt tz 2), (Py.gt tz 1), (Py.gt wz 2), (Py.gt wz 1),
    (Py.gt pz 2), (Py.gt pz 1); simpl;
    solve [ left; split; [reflexivity|lia] | right; split; lia ].
Qed.


(** *** Risk scorer *)

Lemma sub_nan_r (y : float) : (y - nan)%float = nan.
Proof.
  apply Prim2SF_inj. rewrite sub_spec. change (Prim2SF nan) with S754_nan.
  destruct (Prim2SF y); reflexivity.
Qed.

Lemma add_nan_l (y : float) : (nan + y)%float = nan.
Proof.
  apply Prim2SF_inj. rewrite add_spec. change (Prim2SF nan) with S754_nan.
  reflexivity.
Qed.

Lemma add_nan_r (y : float) : (y + nan)%float = nan.
Proof.
  apply Prim2SF_inj. rewrite add_spec. change (Prim2SF nan) with S754_nan.
  destruct (Prim2SF y); reflexivity.
Qed.

Lemma similarity_score_nan (wc current_weather : weather) :
  temp current_weather = nan \/ wind_speed current_weather = nan
  \/ precipitation current_weather = nan ->
  similarity_score wc current_weather = nan.
Proof.
  unfold similarity_score. intros [H|[H|H]]; rewrite H, sub_nan_r.
  - change (abs nan) with nan. change (nan / 50)%float with nan.
    change (Py.min2 nan 1) with nan. change ((1 - nan) * 0.3)%float with nan.
    now rewrite !add_nan_l.
  - change (abs nan) with nan. change (nan / 100)%float with nan.
    change (Py.min2 nan 1) with nan. change ((1 - nan) * 0.4)%float with nan.
    now rewrite add_nan_r, add_nan_l.
  - change (abs nan) with nan. change (nan / 10)%float with nan.
    change (Py.min2 nan 1) with nan. change ((1 - nan) * 0.3)%float with nan.
    now rewrite add_nan_r.
Qed.

Lemma similarity_score_same (w : weather) :
  Py.is_finite (temp w) = true -> Py.is_finite (wind_speed w) = true ->
  Py.is_finite (precipitation w) = true ->
  similarity_score w w = 1%float.
Proof.
  intros Ht Hw Hp. unfold similarity_score.
  rewrite !sub_self_finite by assumption. reflexivity.
Qed.

(** X5. A historical record whose weather is the current weather, all three
    values finite, has similarity exactly 1 and is among the similar
    conditions. *)
Theorem same_weather_qualifies (current_weather : weather) (history : list outage)
  (o : outage) :
  In o history -> weather_conditions o = current_weather ->
  Py.is_finite (temp current_weather) = true ->
  Py.is_finite (wind_speed current_weather) = true ->
  Py.is_finite (precipitation current_weather) = true ->
  similarity_score (weather_conditions o) current_weather = 1%float
  /\ In (o, 1%float) (similar_conditions current_weather history).
Proof.
  intros Hin Hw Ft Fw Fp. rewrite Hw.
  pose proof (similarity_score_same current_weather Ft Fw Fp) as Hone.
  split; [exact Hone|].
  apply in_similar_conditions. split; [assumption|].
  rewrite Hw, <- similarity_score_spec, Hone. split; reflexivity.
Qed.

(** X6. When one of the three current values is NaN, every similarity is
    NaN, no record qualifies, and the block adds the flat 20. *)
Theorem nan_weather_has_no_similar_record (current_weather : weather) (history : list outage) :
  temp current_weather = nan \/ wind_speed current_weather = nan
  \/ precipitation current_weather = nan ->
  (forall o, similarity_score (weather_conditions o) current_weather = nan)
  /\ similar_conditions current_weather history = []
  /\ historical_term (similar_conditions current_weather history) = 20%float.
Proof.
  intros Hnan.
  assert (Hempty : similar_conditions current_weather history = []).
  { destruct (similar_conditions current_weather history) as [|[o s] rest] eqn:Hs;
      [reflexivity|exfalso].
    assert (Hin : In (o, s) (similar_conditions current_weather history))
      by (rewrite Hs; now left).
    apply in_similar_conditions in Hin as (_ & -> & Hgt).
    rewrite <- similarity_score_spec, similarity_score_nan in Hgt by assumption.
    discriminate Hgt. }
  split; [intros o; now apply similarity_score_nan|].
  split; [exact Hempty|]. now rewrite Hempty.
Qed.

Lemma filter_none {A : Type} (p : A -> bool) (l : list A) :
  (forall a, In a l -> p a = false) -> filter p l = [].
Proof.
  induction l as [|a l IH]; intros H; simpl; [reflexivity|].
  rewrite (H a) by now left. apply IH. intros b Hb. apply H. now right.
Qed.

(** X7. When some record qualifies and no record of the history saw an
    outage, the weighted outage count is 0 and the block adds exactly 0,
    less than the flat 20 it adds when no record qualifies at all. *)
Theorem no_outage_adds_nothing (current_weather : weather) (history : list outage) :
  similar_conditions current_weather history <> [] ->
  (forall o, In o history -> outage_occurred o = false) ->
  weighted_outage_count (similar_conditions current_weather history) = 0%float
  /\ historical_term (similar_conditions current_weather history) = 0%float.
Proof.
  intros Hne Hnone.
  set (similar := similar_conditions current_weather history) in *.
  assert (Hall : Forall (fun s => Py.gt (snd s) 0.6 = true) similar).
  { unfold similar. rewrite similar_conditions_qualifying. apply qualifying_above. }
  assert (Hcount : weighted_outage_count similar = 0%float).
  { unfold weighted_outage_count. rewrite filter_none; [reflexivity|].
    intros [o s] Hin. apply in_similar_conditions in Hin as (Hin & _).
    now apply Hnone. }
  split; [exact Hcount|].
  destruct (historical_term_qualifying similar Hne Hall) as (_ & _ & ->).
  unfold weighted_fraction. rewrite Hcount, zero_div_positive; [reflexivity|].
  now apply total_weight_positive.
Qed.

(** X8. The loop keeps the qualifying records in the order of the history,
    each as often as it occurs there: the records of [similar_conditions]
    are the history filtered by the threshold, and each carries its own
    similarity. *)
Theorem similar_conditions_keeps_order (current_weather : weather) (history : list outage) :
  map fst (similar_conditions current_weather history)
  = filter (fun o => Py.gt (similarity_score (weather_conditions o) current_weather) 0.6)
      history
  /\ map snd (similar_conditions current_weather history)
     = map (fun o => similarity_score (weather_conditions o) current_weather)
         (map fst (similar_conditions current_weather history))
  /\ (List.length (similar_conditions current_weather history) <= List.length history)%nat.
Proof.
  rewrite similar_conditions_qualifying. unfold qualifying.
  split; [|split].
  - induction history as [|o history IH]; [reflexivity|].
    cbn [map filter]. rewrite <- similarity_score_spec. cbn [snd].
    destruct (Py.gt (similarity_score (weather_conditions o) current_weather) 0.6);
      cbn [map fst]; now rewrite IH.
  - induction history as [|o history IH]; [reflexivity|].
    cbn [map filter]. rewrite <- similarity_score_spec. cbn [snd].
    destruct (Py.gt (similarity_score (weather_conditions o) current_weather) 0.6);
      cbn [map fst snd]; now rewrite IH.
  - induction history as [|o history IH]; [simpl; lia|].
    cbn [map filter].
    destruct (Py.gt (snd (o, similarity_spec (weather_conditions o) current_weather)) 0.6);
      cbn [List.length]; lia.
Qed.

(** X9. The environmental term lies between 0 and 50 and is a multiple of
    5, so it moves the risk score by 10 points at most. *)
Theorem environmental_risk_bounds (current_weather : weather) :
  0 <= environmental_risk current_weather <= 50
  /\ environmental_risk current_weather mod 5 = 0.
Proof.
  unfold environmental_risk, env_temp_rule, env_wind_rule, env_precip_rule.
  destruct (Py.lt (temp current_weather) (-5)), (Py.lt (temp current_weather) 0),
    (Py.gt (temp current_weather) 35), (Py.gt (temp current_weather) 30),
    (Py.gt (wind_speed current_weather) 60), (Py.gt (wind_speed current_weather) 50),
    (Py.gt (wind_speed current_weather) 35), (Py.gt (precipitation current_weather) 4),
    (Py.gt (precipitation current_weather) 3), (Py.gt (precipitation current_weather) 2);
    simpl; split; try reflexivity; lia.
Qed.

(** X10. A result of the scorer always carries at least one factor, and
    the scorer adds none of its own: the factors are the "limited data"
    message of the short circuit or exactly the detector's factors. *)
Theorem scorer_factors_never_empty (nbhd_id : string) (current_weather : weather)
  (score : Z) (factors : list string) :
  calculate_risk_score nbhd_id current_weather = Ok (score, factors) ->
  factors <> []
  /\ (neighborhood_history nbhd_id = []
      /\ factors = ["Limited historical data for this area"]
      \/ exists anomaly_score,
           neighborhood_history nbhd_id <> []
           /\ detect_weather_anomaly current_weather (neighborhood_history nbhd_id)
              = Ok (anomaly_score, factors)).
Proof.
  unfold calculate_risk_score.
  destruct (neighborhood_history nbhd_id) as [|h rest] eqn:Hh.
  - intros [= <- <-]. split; [discriminate|]. left. split; reflexivity.
  - destruct (detect_weather_anomaly current_weather (h :: rest)) as [[a f]|e] eqn:Hd;
      cbn [bind]; [|discriminate].
    destruct (int_clamp (accumulated_risk nbhd_id current_weather (h :: rest) a))
      as (s & -> & _).
    cbn [bind]. intros [= <- <-]. split.
    + apply detect_weather_anomaly_returned in Hd
        as (tm & wm & pm & tz & wz & pz & _ & ->); [|discriminate].
      apply anomaly_factors_spec_nonempty.
    + right. exists a. split; [discriminate|reflexivity].
Qed.

(** *** Weather adapter *)

Lemma mapM_raises {A B : Type} (f : A -> result B) (l : list A) (x : A) (e : exn) :
  In x l -> f x = Raise e -> exists e', mapM f l = Raise e'.
Proof.
  induction l as [|a l IH]; intros Hin Hx; [destruct Hin|].
  cbn [mapM]. destruct Hin as [->|Hin].
  - rewrite Hx. eauto.
  - destruct (f a); [|eauto]. destruct (IH Hin Hx) as (e' & ->). eauto.
Qed.

Lemma mapM_no_rain (l : list json) :
  (forall f, In f l -> no_rain_reported f) ->
  mapM (fun f => r <- dict_get f "rain" (JObj []) ;; dict_get r "3h" (JNum 0%float))%py l
  = Ok (map (fun _ => JNum 0%float) l).
Proof.
  induction l as [|a l IH]; intros H; [reflexivity|].
  cbn [mapM map]. rewrite IH by (intros f Hf; apply H; now right).
  destruct (H a (or_introl eq_refl)) as (fields & -> & [Hr|(rain & Hr & H3)]);
    cbn [dict_get]; rewrite Hr; cbn [bind dict_get lookup]; [reflexivity|].
  now rewrite H3.
Qed.

Lemma mapM_as_number_zeros {A : Type} (l : list A) :
  mapM as_number (map (fun _ => JNum 0%float) l) = Ok (map (fun _ => 0%float) l).
Proof.
  induction l as [|a l IH]; [reflexivity|]. cbn [mapM map as_number]. now rewrite IH.
Qed.

(** X11. The adapter reads the first eight intervals of the reply and
    nothing after them: two replies whose lists agree on their first eight
    items give the same forecast, whatever follows. *)
Theorem forecast_reads_first_eight (status : Z) (fields fields' : list (string * json))
  (items items' : list json) :
  lookup "list" fields = Some (JArr items) ->
  lookup "list" fields' = Some (JArr items') ->
  firstn 8 items = firstn 8 items' ->
  get_weather_forecast (Responded status (Some (JObj fields)))
  = get_weather_forecast (Responded status (Some (JObj fields'))).
Proof.
  intros Hl Hl' Hfirst. unfold get_weather_forecast, fetch_forecast, http_get_json.
  destruct ((400 <=? status) && (status <? 600))%bool; [reflexivity|].
  cbn [bind subscript]. rewrite Hl, Hl'. cbn [bind slice8]. now rewrite Hfirst.
Qed.

(** X12. One malformed interval among the first eight discards the whole
    reply: when an interval is not an object, or lacks ["main"] or
    ["wind"], the forecast is the fixed fallback, however good the other
    intervals are. *)
Theorem malformed_interval_discards_reply (status : Z) (fields : list (string * json))
  (items : list json) (interval : json) :
  lookup "list" fields = Some (JArr items) ->
  In interval (firstn 8 items) ->
  (forall entries, interval <> JObj entries)
  \/ (exists entries, interval = JObj entries
                      /\ (lookup "main" entries = None \/ lookup "wind" entries = None)) ->
  get_weather_forecast (Responded status (Some (JObj fields))) = fallback_forecast.
Proof.
  intros Hl Hin Hbad.
  assert (Hraise : exists e, fetch_forecast (Responded status (Some (JObj fields))) = Raise e).
  { unfold fetch_forecast, http_get_json.
    destruct ((400 <=? status) && (status <? 600))%bool; [cbn [bind]; eauto|].
    cbn [bind subscript]. rewrite Hl. cbn [bind slice8].
    assert (Hcases :
              (exists e, (m <- subscript interval "main" ;; subscript m "temp")%py = Raise e)
              \/ (exists e, (w <- subscript interval "wind" ;; subscript w "speed")%py
                            = Raise e)).
    { destruct Hbad as [Hobj|(entries & -> & [Hm|Hw])].
      - left. destruct interval; try (cbn [subscript bind]; eauto).
        now destruct (Hobj fields0).
      - left. cbn [subscript]. rewrite Hm. cbn [bind]. eauto.
      - right. cbn [subscript]. rewrite Hw. cbn [bind]. eauto. }
    destruct Hcases as [(e & He)|(e & He)].
    - destruct (mapM_raises
                  (fun f => (m <- subscript f "main" ;; subscript m "temp")%py)
                  (firstn 8 items) interval e Hin He) as (e' & ->).
      cbn [bind]. eauto.
    - destruct (mapM (fun f => (m <- subscript f "main" ;; subscript m "temp")%py)
                  (firstn 8 items)); cbn [bind]; [|eauto].
      destruct (mapM_raises
                  (fun f => (w <- subscript f "wind" ;; subscript w "speed")%py)
                  (firstn 8 items) interval e Hin He) as (e' & ->).
      cbn [bind]. eauto. }
  destruct Hraise as (e & He). unfold get_weather_forecast. now rewrite He.
Qed.

(** X13. Intervals that report no rain count as 0 mm: when none of the
    first eight intervals carries a ["rain"]["3h"] entry and the reply is
    otherwise decoded, the precipitation of the forecast is [round(0, 1)]. *)
Theorem dry_intervals_give_zero_precipitation (status : Z)
  (fields : list (string * json)) (items : list json) (forecast : weather) :
  lookup "list" fields = Some (JArr items) ->
  (forall interval, In interval (firstn 8 items) -> no_rain_reported interval) ->
  fetch_forecast (Responded status (Some (JObj fields))) = Ok forecast ->
  get_weather_forecast (Responded status (Some (JObj fields))) = forecast
  /\ precipitation forecast = round1 0.
Proof.
  intros Hl Hdry Hrun. split; [unfold get_weather_forecast; now rewrite Hrun|].
  revert Hrun. unfold fetch_forecast, http_get_json.
  destruct ((400 <=? status) && (status <? 600))%bool; [discriminate|].
  cbn [bind subscript]. rewrite Hl. cbn [bind slice8].
  destruct (mapM _ (firstn 8 items)) as [temps|e]; cbn [bind]; [|discriminate].
  destruct (mapM _ (firstn 8 items)) as [winds|e]; cbn [bind]; [|discriminate].
  rewrite (mapM_no_rain _ Hdry). cbn [bind].
  destruct (mapM as_number temps) as [temps'|e]; cbn [bind]; [|discriminate].
  destruct (mapM as_number winds) as [winds'|e]; cbn [bind]; [|discriminate].
  rewrite mapM_as_number_zeros. cbn [bind]. intros [= <-].
  cbn [precipitation]. now rewrite sum_of_zeros.
Qed.

(** X14. An empty interval list is not a failure: a decoded reply whose
    ["list"] is empty gives a forecast of zero in all three fields (each
    passed through [round]), not the fallback forecast. *)
Theorem empty_list_gives_zero_forecast (status : Z) (fields : list (string * json)) :
  ~ 400 <= status < 600 ->
  lookup "list" fields = Some (JArr []) ->
  get_weather_forecast (Responded status (Some (JObj fields)))
  = {| temp := round1 0; wind_speed := round1 0; precipitation := round1 0 |}.
Proof.
  intros Hs Hl. unfold get_weather_forecast, fetch_forecast, http_get_json.
  destruct (Z.leb_spec 400 status), (Z.ltb_spec status 600); try lia;
    cbn [andb bind subscript]; rewrite Hl; reflexivity.
Qed.

(** *** Explanation *)

(** X15. Without a usable token (unset, empty or the placeholder) and on
    every failure of the text service (no connection, a timeout, an error
    status, a body that is not JSON, no ["choices"], an empty ["choices"])
    the explanation is the rule-based one. *)
Theorem explanation_falls_back (str_strip : string -> string)
  (github_token : option string) (text_service : string -> http_outcome)
  (nbhd_id : string) (risk_score : Z) (w : weather) (anomaly_factors : list string) :
  let reply := text_service (prompt nbhd_id risk_score w anomaly_factors) in
  github_token = None \/ github_token = Some ""
  \/ github_token = Some "your-github-token-here"
  \/ reply = ConnectionFailed \/ reply = TimedOut
  \/ (exists status body, reply = Responded status body /\ 400 <= status < 600)
  \/ (exists status, reply = Responded status None)
  \/ (exists status fields,
        reply = Responded status (Some (JObj fields))
        /\ (lookup "choices" fields = None \/ lookup "choices" fields = Some (JArr []))) ->
  generate_explanation_with_ai str_strip github_token text_service nbhd_id risk_score w
    anomaly_factors
  = generate_fallback_explanation nbhd_id risk_score w anomaly_factors.
Proof.
  intros reply H. unfold generate_explanation_with_ai. fold reply.
  destruct H as [->|[->|[->|H]]]; try reflexivity.
  destruct (no_token github_token); [reflexivity|].
  destruct H as [->|[->|[(status & body & -> & Hs)|[(status & ->)|H]]]];
    try reflexivity.
  - unfold chat_content, http_get_json.
    destruct (Z.leb_spec 400 status), (Z.ltb_spec status 600); try lia. reflexivity.
  - unfold chat_content, http_get_json.
    destruct ((400 <=? status) && (status <? 600))%bool; reflexivity.
  - destruct H as (status & fields & -> & Hc).
    unfold chat_content, http_get_json.
    destruct ((400 <=? status) && (status <? 600))%bool; [reflexivity|].
    cbn [bind subscript]. destruct Hc as [-> | ->]; reflexivity.
Qed.

(** X16. With a real token and a reply of the text service that decodes,
    the explanation is the content of the first choice with surrounding
    white space stripped; the other choices are not read. *)
Theorem explanation_is_first_choice (str_strip : string -> string)
  (github_token : option string) (text_service : string -> http_outcome)
  (nbhd_id : string) (risk_score : Z) (w : weather) (anomaly_factors : list string)
  (status : Z) (fields choice message : list (string * json)) (others : list json)
  (content : string) :
  no_token github_token = false ->
  text_service (prompt nbhd_id risk_score w anomaly_factors)
  = Responded status (Some (JObj fields)) ->
  ~ 400 <= status < 600 ->
  lookup "choices" fields = Some (JArr (JObj choice :: others)) ->
  lookup "message" choice = Some (JObj message) ->
  lookup "content" message = Some (JStr content) ->
  generate_explanation_with_ai str_strip github_token text_service nbhd_id risk_score w
    anomaly_factors
  = str_strip content.
Proof.
  intros Htok Hreply Hs Hc Hm Hcontent. unfold generate_explanation_with_ai.
  rewrite Htok, Hreply. unfold chat_content, http_get_json.
  destruct (Z.leb_spec 400 status), (Z.ltb_spec status 600); try lia;
    cbn [andb bind subscript caught]; rewrite Hc; cbn [caught index0 subscript];
    rewrite Hm; cbn [bind subscript]; rewrite Hcontent; reflexivity.
Qed.

Lemma chat_content_some (str_strip : string -> string) (reply : http_outcome)
  (text : string) :
  chat_content str_strip reply = Some text ->
  exists status fields choices choice message content,
    reply = Responded status (Some (JObj fields))
    /\ ~ 400 <= status < 600
    /\ lookup "choices" fields = Some choices
    /\ index0 choices = Some (JObj choice)
    /\ lookup "message" choice = Some (JObj message)
    /\ lookup "content" message = Some (JStr content)
    /\ text = str_strip content.
Proof.
  unfold chat_content, http_get_json.
  destruct reply as [| |status body]; try discriminate.
  destruct (Z.leb_spec 400 status) as [Hlo|Hlo], (Z.ltb_spec status 600) as [Hhi|Hhi];
    cbn [andb]; try discriminate.
  all: destruct body as [data|]; cbn [bind caught]; try discriminate.
  all: destruct data as [| | | |items|fields]; cbn [subscript caught]; try discriminate.
  all: destruct (lookup "choices" fields) as [choices|] eqn:Hc;
    cbn [caught]; try discriminate.
  all: destruct (index0 choices) as [choice|] eqn:Hi; try discriminate.
  all: destruct choice as [| | | | |choice]; cbn [subscript bind caught];
    try discriminate.
  all: destruct (lookup "message" choice) as [message|] eqn:Hm;
    cbn [bind caught]; try discriminate.
  all: destruct message as [| | | | |message]; cbn [subscript caught]; try discriminate.
  all: destruct (lookup "content" message) as [content|] eqn:Hcontent;
    cbn [caught]; try discriminate.
  all: destruct content as [| | |content| |]; try discriminate.
  all: intros [= <-]; exists status, fields, choices, choice, message, content.
  all: repeat split; try assumption; lia.
Qed.

(** X17. The explanation is never anything else: it is the rule-based text,
    or a real token is set, the text service answered without an error
    status, and the explanation is the stripped string found under
    choices[0].message.content of its reply. *)
Theorem explanation_is_content_or_fallback (str_strip : string -> string)
  (github_token : option string) (text_service : string -> http_outcome)
  (nbhd_id : string) (risk_score : Z) (w : weather) (anomaly_factors : list string) :
  generate_explanation_with_ai str_strip github_token text_service nbhd_id risk_score w
    anomaly_factors
  = generate_fallback_explanation nbhd_id risk_score w anomaly_factors
  \/ (no_token github_token = false
      /\ exists status fields choices choice message content,
           text_service (prompt nbhd_id risk_score w anomaly_factors)
           = Responded status (Some (JObj fields))
           /\ ~ 400 <= status < 600
           /\ lookup "choices" fields = Some choices
           /\ index0 choices = Some (JObj choice)
           /\ lookup "message" choice = Some (JObj message)
           /\ lookup "content" message = Some (JStr content)
           /\ generate_explanation_with_ai str_strip github_token text_service nbhd_id
                risk_score w anomaly_factors
              = str_strip content).
Proof.
  unfold generate_explanation_with_ai.
  destruct (no_token github_token); [now left|].
  destruct (chat_content str_strip _) as [text|] eqn:Hchat; [|now left].
  right. split; [reflexivity|]. now apply chat_content_some.
Qed.

(** *** Endpoints *)

Lemma calculate_risk_score_factors (nbhd_id : string) (current_weather : weather)
  (score : Z) (factors : list string) :
  calculate_risk_score nbhd_id current_weather = Ok (score, factors) ->
  5 <= score <= 95 /\ factors <> [].
Proof.
  intros Hrun.
  destruct (returned_score_in_range _ _ _ _ Hrun) as (r & _ & Hb & Hcases).
  split; [exact Hb|].
  unfold calculate_risk_score in Hrun.
  destruct (neighborhood_history nbhd_id) as [|h rest].
  - injection Hrun as _ <-. discriminate.
  - destruct Hcases as [(Hnil & _)|(a & Hd & _)]; [discriminate Hnil|].
    apply detect_weather_anomaly_returned in Hd
      as (tm & wm & pm & tz & wz & pz & _ & ->); [|discriminate].
    apply anomaly_factors_spec_nonempty.
Qed.


Lemma fallback_explanation_opening (nbhd_id : string) (n : neighborhood)
  (risk_score : Z) (w : weather) (anomaly_factors : list string) :
  find_neighborhood nbhd_id = Some n ->
  prefix (risk_level risk_score ++ " risk of power outage in " ++ name n)
    (generate_fallback_explanation nbhd_id risk_score w anomaly_factors) = true.
Proof.
  intros Hfind. unfold generate_fallback_explanation, neighborhood_name, risk_level.
  rewrite Hfind.
  destruct (risk_score <? 40); [|destruct (risk_score <? 70)].
  - exact (prefix_app ("Low" ++ " risk of power outage in " ++ name n)
             (". Weather conditions are within normal range with "
              ++ str_num (temp w) ++ "°C and " ++ str_num (wind_speed w)
              ++ " km/h winds. No immediate preparation needed, but it's always good to have flashlights and charged devices ready.")).
  - exact (prefix_app ("Moderate" ++ " risk of power outage in " ++ name n)
             (". Our analysis detected " ++ concern w
              ++ " that may affect power lines. Consider charging essential devices, having flashlights ready, and keeping emergency contacts accessible.")).
  - destruct (main_concern_and_action w) as [main_concern action].
    exact (prefix_app ("High" ++ " risk of power outage in " ++ name n)
             (". Weather analysis shows " ++ main_concern
              ++ " that significantly increases outage probability. " ++ action
              ++ ". Charge all essential medical devices immediately, prepare backup power sources, and have emergency supplies ready.")).
Qed.

(** X18. [GET /risk] answers 400 exactly when the parameter is missing or
    empty, 404 exactly when it names no neighborhood of the table, and 200
    otherwise; the 200 body repeats the requested id and carries the name
    of the first table entry with that id. *)
Theorem get_risk_status_codes (str_strip : string -> string) (timestamp : string)
  (arg : option string) (weather_service : float -> float -> http_outcome)
  (github_token : option string) (text_service : string -> http_outcome)
  (status : Z) (body : response_body) :
  get_risk str_strip timestamp arg weather_service github_token text_service
  = Ok (status, body) ->
  (status = 400 /\ body = ErrorBody "neighborhood_id required"
   /\ (arg = None \/ arg = Some ""))
  \/ (status = 404 /\ body = ErrorBody "Neighborhood not found"
      /\ exists nbhd_id, arg = Some nbhd_id /\ nbhd_id <> ""
                         /\ forall n, In n neighborhoods -> id n <> nbhd_id)
  \/ (status = 200
      /\ exists nbhd_id n assessment,
           arg = Some nbhd_id /\ nbhd_id <> ""
           /\ find_neighborhood nbhd_id = Some n /\ In n neighborhoods /\ id n = nbhd_id
           /\ body = RiskBody assessment
           /\ r_neighborhood_id assessment = nbhd_id
           /\ r_neighborhood_name assessment = name n).
Proof.
  unfold get_risk. destruct arg as [nbhd_id|].
  2: { intros [= <- <-]. left. auto. }
  destruct (String.eqb_spec nbhd_id "") as [->|Hne].
  { intros [= <- <-]. left. auto. }
  destruct (find_neighborhood nbhd_id) as [n|] eqn:Hfind.
  - destruct (calculate_risk_score nbhd_id _) as [[score factors]|e];
      cbn [bind]; [|discriminate].
    intros [= <- <-]. right. right. split; [reflexivity|].
    unfold find_neighborhood in Hfind. pose proof (find_some _ _ Hfind) as [Hin Hid].
    apply String.eqb_eq in Hid.
    eexists nbhd_id, n, _. repeat split; try eassumption; reflexivity.
  - intros [= <- <-]. right. left. split; [reflexivity|]. split; [reflexivity|].
    exists nbhd_id. split; [reflexivity|]. split; [exact Hne|].
    intros n Hin. unfold find_neighborhood in Hfind.
    pose proof (find_none _ _ Hfind n Hin) as Hn. now apply String.eqb_neq in Hn.
Qed.

(** X19. What a 200 body of [GET /risk] holds: a score between 5 and 95,
    the level that belongs to that score, at least one anomaly factor, and,
    when no usable token is set, an explanation that opens with that very
    level and the reported neighborhood name. *)
Theorem risk_body_invariants (str_strip : string -> string) (timestamp : string)
  (arg : option string) (weather_service : float -> float -> http_outcome)
  (github_token : option string) (text_service : string -> http_outcome)
  (status : Z) (assessment : risk_assessment) :
  get_risk str_strip timestamp arg weather_service github_token text_service
  = Ok (status, RiskBody assessment) ->
  status = 200
  /\ 5 <= r_risk_score assessment <= 95
  /\ r_risk_level assessment = band_label (score_band (r_risk_score assessment))
  /\ r_anomaly_factors assessment <> []
  /\ (no_token github_token = true ->
      prefix (r_risk_level assessment ++ " risk of power outage in "
              ++ r_neighborhood_name assessment)
        (r_explanation assessment) = true).
Proof.
  unfold get_risk. destruct arg as [nbhd_id|]; [|discriminate].
  destruct (String.eqb nbhd_id ""); [discriminate|].
  destruct (find_neighborhood nbhd_id) as [n|] eqn:Hfind; [|discriminate].
  destruct (calculate_risk_score nbhd_id _) as [[score factors]|e] eqn:Hrun;
    cbn [bind]; [|discriminate].
  intros [= <- <-].
  cbn [r_risk_score r_risk_level r_anomaly_factors r_explanation r_neighborhood_name].
  destruct (calculate_risk_score_factors _ _ _ _ Hrun) as [Hb Hf].
  split; [reflexivity|]. split; [exact Hb|]. split; [|split; [exact Hf|]].
  - unfold risk_level, score_band.
    destruct (score <? 40); [|destruct (score <? 70)]; reflexivity.
  - intros Htok. unfold generate_explanation_with_ai. rewrite Htok.
    now apply fallback_explanation_opening.
Qed.


End GridGuard.

(** ** Concrete runs *)

Local Open Scope Z_scope.

(** 47.9 is cut to 47, not rounded to 48; what lies outside the interval,
    NaN included, ends on a bound. *)
Example int_cuts_the_fraction :
  Py.int (clamp 47.9) = Ok 47 /\ Py.int (clamp 3) = Ok 5
  /\ Py.int (clamp 120.5) = Ok 95 /\ Py.int (clamp nan) = Ok 5
  /\ Py.int (clamp infinity) = Ok 95.
Proof. repeat split; vm_compute; reflexivity. Qed.

(** A record 100 km/h away in wind and equal otherwise has similarity
    exactly 0.6 and does not qualify; with two such records the block adds
    the flat 20. *)
Example similarity_exactly_at_threshold :
  let o := record "downtown" 15 125 1.5 true in
  similarity_score (weather_conditions o) calm = 0.6%float
  /\ similar_conditions calm [o; o] = []
  /\ historical_term (similar_conditions calm [o; o]) = 20%float.
Proof. cbv zeta. repeat split; vm_compute; reflexivity. Qed.

(** Squaring a deviation beyond the range of binary64 raises. *)
Example calculate_std_overflow :
  calculate_std [1e200; -1e200]%float = Raise OverflowError.
Proof. vm_compute. reflexivity. Qed.

(** Three identical records far outside any weather: the rounded mean is
    one unit in the last place away from them, and the square of that
    deviation is out of range. *)
Example calculate_std_overflow_uniform :
  let x := (0.1 * 0x1p+600)%float in
  calculate_mean [x; x; x] <> x
  /\ calculate_std [x; x; x] = Raise OverflowError.
Proof.
  cbv zeta. split; [|vm_compute; reflexivity].
  intros H. apply (f_equal Prim2SF) in H. vm_compute in H. discriminate H.
Qed.

(** A run of the scorer on the sample tables: 21.72 becomes 21. *)
Example calm_day_downtown :
  accumulated_risk sample_neighborhoods "downtown" calm sample_outages 0
  = 21.722660653889516%float
  /\ calculate_risk_score exact_str exact_str sample_neighborhoods sample_outages
       "downtown" calm
     = Ok (21, ["Weather conditions within normal range"]).
Proof. split; vm_compute; reflexivity. Qed.

(** A forecast that is not a number still gets a score: every comparison
    with NaN is false, so there is no anomaly, no similar record and no
    environmental band; 20 and the infrastructure term remain. *)
Example nan_weather_still_scores :
  calculate_risk_score exact_str exact_str sample_neighborhoods sample_outages
    "downtown" {| temp := nan; wind_speed := nan; precipitation := nan |}
  = Ok (34, ["Weather conditions within normal range"]).
Proof. vm_compute. reflexivity. Qed.

Example environmental_risk_runs :
  environmental_risk storm = 15 + 20 + 15
  /\ environmental_risk calm = 0
  /\ environmental_risk {| temp := 32; wind_speed := 55; precipitation := 3.5 |}
     = 5 + 15 + 10.
Proof. repeat split; vm_compute; reflexivity. Qed.

Example risk_level_boundaries :
  risk_level 39 = "Low" /\ risk_level 40 = "Moderate"
  /\ risk_level 69 = "Moderate" /\ risk_level 70 = "High".
Proof. repeat split. Qed.

(** One decoded interval of 10 degrees and 5 m/s gives 18 km/h and no rain;
    an interval without its ["main"] entry gives the fixed forecast.  The
    identity stands for [round(x, 1)], which changes none of these values. *)
Example forecast_runs :
  let interval fields := Responded 200 (Some (JObj [("list", JArr [JObj fields])])) in
  get_weather_forecast (fun x => x)
    (interval [("main", JObj [("temp", JNum 10)]); ("wind", JObj [("speed", JNum 5)])])
  = {| temp := 10; wind_speed := 18; precipitation := 0 |}
  /\ get_weather_forecast (fun x => x)
       (interval [("wind", JObj [("speed", JNum 5)])])
     = fallback_forecast.
Proof. cbv zeta. split; vm_compute; reflexivity. Qed.

Lemma no_history_short_circuit_witness :
  calculate_risk_score exact_str exact_str sample_neighborhoods sample_outages
    "riverside" storm
  = Ok (30, ["Limited historical data for this area"]).
Proof.
  apply no_history_short_circuit.
  intros o Hin. unfold sample_outages in Hin. simpl in Hin.
  destruct Hin as [<-|[<-|[<-|[<-|[]]]]]; vm_compute; discriminate.
Defined.

Lemma anomaly_score_and_factors_witness :
  match detect_weather_anomaly exact_str exact_str storm sample_outages with
  | Ok (score, factors) => score = 90 /\ List.length factors = 3%nat /\ factors <> []
  | Raise _ => False
  end.
Proof.
  assert (Hne : sample_outages <> []) by discriminate.
  destruct (anomaly_score_and_factors exact_str exact_str storm sample_outages Hne)
    as [_ Hfactors].
  destruct (detect_weather_anomaly exact_str exact_str storm sample_outages)
    as [[score factors]|e] eqn:Hrun.
  - destruct (Hfactors score factors eq_refl) as [Hnonempty _].
    vm_compute in Hrun. injection Hrun as <- <-.
    split; [reflexivity|]. split; [reflexivity|exact Hnonempty].
  - vm_compute in Hrun. discriminate Hrun.
Defined.

Lemma uniform_history_within_normal_range_witness :
  detect_weather_anomaly exact_str exact_str calm uniform_outages
  = Ok (0, [normal_factor]).
Proof.
  assert (Hlen : (2 <= List.length uniform_outages)%nat) by (simpl; lia).
  assert (Hsame : forall h, In h uniform_outages -> weather_conditions h = calm).
  { intros h Hin. unfold uniform_outages in Hin. simpl in Hin.
    destruct Hin as [<-|[<-|[<-|[]]]]; reflexivity. }
  assert (Ht : temp calm = calculate_mean (historical_temps uniform_outages))
    by (vm_compute; reflexivity).
  assert (Hw : wind_speed calm = calculate_mean (historical_winds uniform_outages))
    by (vm_compute; reflexivity).
  assert (Hp : precipitation calm = calculate_mean (historical_precip uniform_outages))
    by (vm_compute; reflexivity).
  destruct (uniform_history_within_normal_range exact_str exact_str calm calm
              uniform_outages Hlen Hsame Ht Hw Hp)
    as (_ & _ & Hexact & _).
  apply Hexact; reflexivity.
Defined.

(** The same shape far outside any weather: three identical records, the
    current weather at their mean, and the detector raises. *)
Example uniform_history_overflow :
  let x := (0.1 * 0x1p+600)%float in
  let history := [record "downtown" x 25 1.5 false; record "downtown" x 25 1.5 true;
                  record "downtown" x 25 1.5 false] in
  let current :=
    {| temp := calculate_mean (historical_temps history);
       wind_speed := 25%float; precipitation := 1.5%float |} in
  detect_weather_anomaly exact_str exact_str current history = Raise OverflowError.
Proof. vm_compute. reflexivity. Qed.

Lemma total_weight_strictly_positive_witness :
  Py.gt (total_weight (similar_conditions calm sample_outages)) 0 = true.
Proof.
  assert (Hne : similar_conditions calm sample_outages <> [])
    by (vm_compute; discriminate).
  destruct (total_weight_strictly_positive calm sample_outages Hne) as (_ & Hpos & _).
  exact Hpos.
Defined.

Lemma fallback_explanation_deterministic_witness :
  generate_fallback_explanation exact_str sample_neighborhoods "downtown" 45 storm []
  = generate_fallback_explanation exact_str sample_neighborhoods "downtown" 60 storm
      ["Unusually high winds"].
Proof. apply fallback_explanation_deterministic; reflexivity. Defined.

(** Same band, same weather, two neighborhoods: the texts differ, because
    each names its neighborhood. *)
Lemma fallback_explanation_names_the_neighborhood :
  score_band 50 = score_band 50
  /\ generate_fallback_explanation exact_str sample_neighborhoods "downtown" 50 calm []
     <> generate_fallback_explanation exact_str sample_neighborhoods "riverside" 50 calm [].
Proof.
  split; [reflexivity|]. intros H. vm_compute in H. discriminate H.
Qed.

(** ** Across tables *)

(** X21. Records of other neighborhoods never reach the score: two outage
    tables that hold the same records for a neighborhood, in the same
    order, give the same result for it, whatever else they hold. *)
Theorem other_neighborhoods_records_ignored (str_num str_1f : float -> string)
  (neighborhoods : list neighborhood) (outages outages' : list outage)
  (nbhd_id : string) (current_weather : weather) :
  filter (fun o => String.eqb (neighborhood_id o) nbhd_id) outages
  = filter (fun o => String.eqb (neighborhood_id o) nbhd_id) outages' ->
  calculate_risk_score str_num str_1f neighborhoods outages nbhd_id current_weather
  = calculate_risk_score str_num str_1f neighborhoods outages' nbhd_id current_weather.
Proof.
  intros Hsame. unfold calculate_risk_score, neighborhood_history.
  now rewrite Hsame.
Qed.

(** ** Runs of the further properties *)

Lemma anomaly_factors_shape_witness :
  match detect_weather_anomaly exact_str exact_str storm sample_outages with
  | Ok (score, factors) =>
      (factors = [normal_factor] /\ score <= 50)
      \/ ((1 <= List.length factors <= 3)%nat /\ 25 <= score)
  | Raise _ => False
  end.
Proof.
  destruct (detect_weather_anomaly exact_str exact_str storm sample_outages)
    as [[score factors]|e] eqn:Hrun.
  - apply (anomaly_factors_shape exact_str exact_str storm sample_outages score factors);
      [discriminate|exact Hrun].
  - vm_compute in Hrun. discriminate Hrun.
Defined.


Lemma same_weather_qualifies_witness :
  similarity_score (weather_conditions (record "downtown" 15 25 1.5 true)) calm = 1%float
  /\ In (record "downtown" 15 25 1.5 true, 1%float)
       (similar_conditions calm uniform_outages).
Proof.
  apply (same_weather_qualifies calm uniform_outages (record "downtown" 15 25 1.5 true)).
  - right. left. reflexivity.
  - reflexivity.
  - reflexivity.
  - reflexivity.
  - reflexivity.
Defined.

Lemma nan_weather_has_no_similar_record_witness :
  let current := {| temp := 15; wind_speed := nan; precipitation := 1.5 |} in
  (forall o, similarity_score (weather_conditions o) current = nan)
  /\ similar_conditions current sample_outages = []
  /\ historical_term (similar_conditions current sample_outages) = 20%float.
Proof.
  apply (nan_weather_has_no_similar_record
           {| temp := 15; wind_speed := nan; precipitation := 1.5 |} sample_outages).
  right. left. reflexivity.
Defined.

Lemma no_outage_adds_nothing_witness :
  let history := [record "downtown" 12 20 1 false; record "downtown" 14 25 0 false] in
  weighted_outage_count (similar_conditions calm history) = 0%float
  /\ historical_term (similar_conditions calm history) = 0%float.
Proof.
  apply (no_outage_adds_nothing calm
           [record "downtown" 12 20 1 false; record "downtown" 14 25 0 false]).
  - vm_compute. discriminate.
  - intros o [<-|[<-|[]]]; reflexivity.
Defined.

Lemma scorer_factors_never_empty_witness :
  ["Weather conditions within normal range"] <> []
  /\ (neighborhood_history sample_outages "downtown" = []
      /\ ["Weather conditions within normal range"]
         = ["Limited historical data for this area"]
      \/ exists anomaly_score,
           neighborhood_history sample_outages "downtown" <> []
           /\ detect_weather_anomaly exact_str exact_str calm
                (neighborhood_history sample_outages "downtown")
              = Ok (anomaly_score, ["Weather conditions within normal range"])).
Proof.
  apply (scorer_factors_never_empty exact_str exact_str sample_neighborhoods
           sample_outages "downtown" calm 21).
  vm_compute. reflexivity.
Defined.

(** Nine intervals: what the ninth holds, a heat wave or no object at all,
    leaves the forecast as it is. *)
Lemma forecast_reads_first_eight_witness :
  let day := repeat (interval 10 5 []) 8 in
  get_weather_forecast (fun x => x)
    (Responded 200 (Some (JObj [("list", JArr (day ++ [interval 45 30 []])%list)])))
  = get_weather_forecast (fun x => x)
      (Responded 200 (Some (JObj [("list", JArr (day ++ [JNull])%list)]))).
Proof.
  apply (forecast_reads_first_eight (fun x => x) 200
           [("list", JArr (repeat (interval 10 5 []) 8 ++ [interval 45 30 []])%list)]
           [("list", JArr (repeat (interval 10 5 []) 8 ++ [JNull])%list)]
           (repeat (interval 10 5 []) 8 ++ [interval 45 30 []])%list
           (repeat (interval 10 5 []) 8 ++ [JNull])%list);
    reflexivity.
Defined.

Lemma malformed_interval_discards_reply_witness :
  get_weather_forecast (fun x => x)
    (forecast_reply [interval 10 5 []; JObj [("wind", JObj [("speed", JNum 5)])]])
  = fallback_forecast.
Proof.
  apply (malformed_interval_discards_reply (fun x => x) 200
           [("cod", JStr "200");
            ("list", JArr [interval 10 5 []; JObj [("wind", JObj [("speed", JNum 5)])]])]
           [interval 10 5 []; JObj [("wind", JObj [("speed", JNum 5)])]]
           (JObj [("wind", JObj [("speed", JNum 5)])])).
  - reflexivity.
  - right. left. reflexivity.
  - right. exists [("wind", JObj [("speed", JNum 5)])]. split; [reflexivity|].
    left. reflexivity.
Defined.

Lemma dry_intervals_give_zero_precipitation_witness :
  let items := [interval 10 5 []; interval 12 7 [("rain", JObj [])]] in
  let forecast := {| temp := 11; wind_speed := 21.6; precipitation := 0 |} in
  get_weather_forecast (fun x => x) (forecast_reply items) = forecast
  /\ precipitation forecast = 0%float.
Proof.
  cbv zeta.
  apply (dry_intervals_give_zero_precipitation (fun x => x) 200
           [("cod", JStr "200");
            ("list", JArr [interval 10 5 []; interval 12 7 [("rain", JObj [])]])]
           [interval 10 5 []; interval 12 7 [("rain", JObj [])]]).
  - reflexivity.
  - intros f [<-|[<-|[]]]; eexists; (split; [reflexivity|]).
    + left. reflexivity.
    + right. exists []. split; reflexivity.
  - vm_compute. reflexivity.
Defined.

Lemma empty_list_gives_zero_forecast_witness :
  get_weather_forecast (fun x => x) (forecast_reply [])
  = {| temp := 0; wind_speed := 0; precipitation := 0 |}.
Proof.
  apply (empty_list_gives_zero_forecast (fun x => x) 200
           [("cod", JStr "200"); ("list", JArr [])]).
  - lia.
  - reflexivity.
Defined.

(** A token is set, the text service times out. *)
Lemma explanation_falls_back_witness :
  generate_explanation_with_ai exact_str sample_neighborhoods (fun s => s)
    (Some "ghp_token") (fun _ => TimedOut) "downtown" 45 storm ["Unusually high winds"]
  = generate_fallback_explanation exact_str sample_neighborhoods "downtown" 45 storm
      ["Unusually high winds"].
Proof.
  apply (explanation_falls_back exact_str sample_neighborhoods (fun s => s)
           (Some "ghp_token") (fun _ => TimedOut) "downtown" 45 storm
           ["Unusually high winds"]).
  right. right. right. right. left. reflexivity.
Defined.

(** The identity stands for [strip] on a content without outer white
    space. *)
Lemma explanation_is_first_choice_witness :
  generate_explanation_with_ai exact_str sample_neighborhoods (fun s => s)
    (Some "ghp_token") (fun _ => chat_reply "Stay safe.") "downtown" 45 storm
    ["Unusually high winds"]
  = "Stay safe.".
Proof.
  apply (explanation_is_first_choice exact_str sample_neighborhoods (fun s => s)
           (Some "ghp_token") (fun _ => chat_reply "Stay safe.") "downtown" 45 storm
           ["Unusually high winds"] 200
           [("choices",
             JArr [JObj [("index", JNum 0);
                         ("message", JObj [("role", JStr "assistant");
                                           ("content", JStr "Stay safe.")])]])]
           [("index", JNum 0);
            ("message", JObj [("role", JStr "assistant"); ("content", JStr "Stay safe.")])]
           [("role", JStr "assistant"); ("content", JStr "Stay safe.")]
           [] "Stay safe.").
  - reflexivity.
  - reflexivity.
  - lia.
  - reflexivity.
  - reflexivity.
  - reflexivity.
Defined.

Lemma get_risk_status_codes_witness :
  let arg := Some "harbor" in
  (404 = 400 /\ ErrorBody "Neighborhood not found" = ErrorBody "neighborhood_id required"
   /\ (arg = None \/ arg = Some ""))
  \/ (404 = 404 /\ ErrorBody "Neighborhood not found" = ErrorBody "Neighborhood not found"
      /\ exists nbhd_id, arg = Some nbhd_id /\ nbhd_id <> ""
                         /\ forall n, In n sample_neighborhoods -> id n <> nbhd_id)
  \/ (404 = 200
      /\ exists nbhd_id n assessment,
           arg = Some nbhd_id /\ nbhd_id <> ""
           /\ find_neighborhood sample_neighborhoods nbhd_id = Some n
           /\ In n sample_neighborhoods /\ id n = nbhd_id
           /\ ErrorBody "Neighborhood not found" = RiskBody assessment
           /\ r_neighborhood_id assessment = nbhd_id
           /\ r_neighborhood_name assessment = name n).
Proof.
  apply (get_risk_status_codes exact_str exact_str (fun x => x) sample_neighborhoods
           sample_outages (fun s => s) "2024-01-01T00:00:00" (Some "harbor")
           (fun _ _ => TimedOut) None (fun _ => TimedOut)).
  reflexivity.
Defined.

(** The provider of the forecast times out and no token is set: the body
    still holds a score, its level, a factor and the rule-based text. *)
Lemma risk_body_invariants_witness :
  match get_risk exact_str exact_str (fun x => x) sample_neighborhoods sample_outages
          (fun s => s) "2024-01-01T00:00:00" (Some "downtown") (fun _ _ => TimedOut)
          None (fun _ => TimedOut) with
  | Ok (status, RiskBody assessment) =>
      status = 200
      /\ 5 <= r_risk_score assessment <= 95
      /\ r_risk_level assessment = band_label (score_band (r_risk_score assessment))
      /\ r_anomaly_factors assessment <> []
      /\ (no_token None = true ->
          prefix (r_risk_level assessment ++ " risk of power outage in "
                  ++ r_neighborhood_name assessment)
            (r_explanation assessment) = true)
  | _ => False
  end.
Proof.
  destruct (get_risk exact_str exact_str (fun x => x) sample_neighborhoods sample_outages
              (fun s => s) "2024-01-01T00:00:00" (Some "downtown") (fun _ _ => TimedOut)
              None (fun _ => TimedOut))
    as [[status [err|assessment]]|e] eqn:Hrun.
  - vm_compute in Hrun. discriminate Hrun.
  - exact (risk_body_invariants _ _ _ _ _ _ _ _ _ _ _ _ _ Hrun).
  - vm_compute in Hrun. discriminate Hrun.
Defined.


Lemma other_neighborhoods_records_ignored_witness :
  calculate_risk_score exact_str exact_str sample_neighborhoods sample_outages
    "downtown" calm
  = calculate_risk_score exact_str exact_str sample_neighborhoods
      (record "riverside" 40 90 8 true :: sample_outages
       ++ [record "riverside" (-20) 5 0 true])%list
      "downtown" calm.
Proof.
  apply (other_neighborhoods_records_ignored exact_str exact_str sample_neighborhoods
           sample_outages
           (record "riverside" 40 90 8 true :: sample_outages
            ++ [record "riverside" (-20) 5 0 true])%list
           "downtown" calm).
  reflexivity.
Defined.
